(** * LittleLemon: the function views of the ordering API

    A shallow embedding of [LittleLemonDRF/views-function.py] and
    [LittleLemonDRF/serializers.py].  Every view is a function of the request
    in a monad that threads the database and may raise: a raised exception
    leaves the rows written before it in place, as the views run without a
    transaction of their own.

    The framework (Django, Django REST framework) is modelled where the views
    call it: [Response], [get_object_or_404], [Paginator], the serializers'
    [is_valid] and [save], and the [api_view] wrapper that checks permissions
    and methods.  What the framework leaves to the database or to its text
    conversions is the parameter [Framework] of the development. *)

From Stdlib Require Import ZArith QArith List Ascii String Bool Lia.
From Stdlib Require DecimalString.
Import ListNotations.
Local Open Scope string_scope.
Local Open Scope list_scope.
Local Open Scope Z_scope.

Set Implicit Arguments.

(** ** Values, dictionaries, exceptions *)

(** A JSON value of a request body, or a Python object a view puts into the
    dictionary it hands to a serializer. *)
Inductive value : Type :=
| VNull
| VBool (b : bool)
| VInt (n : Z)
| VDecimal (d : Q)
| VStr (s : string).

(** A Python [dict] with text keys, as a literal lists it. *)
Definition dict : Type := list (string * value).

Fixpoint dict_get (k : string) (d : dict) : option value :=
  match d with
  | [] => None
  | (k', v) :: d' => if String.eqb k k' then Some v else dict_get k d'
  end.

(** The query string: text keys and text values. *)
Definition query : Type := list (string * string).

Fixpoint query_get (k : string) (q : query) : option string :=
  match q with
  | [] => None
  | (k', v) :: q' => if String.eqb k k' then Some v else query_get k q'
  end.

(** Python's truth value of a text ([if search:]). *)
Definition nonempty (s : string) : bool :=
  match s with EmptyString => false | _ => true end.

(** Python's truth value of a JSON value ([if username:]). *)
Definition truthy (v : value) : bool :=
  match v with
  | VNull => false
  | VBool b => b
  | VInt n => negb (n =? 0)
  | VDecimal d => negb (Qeq_bool d 0)
  | VStr s => nonempty s
  end.

(** The exceptions the views and the framework under them raise. *)
Inductive exn : Type :=
| Http404                 (* get_object_or_404 found no row *)
| ValidationError         (* rest_framework: is_valid(raise_exception=True) *)
| NotAuthenticated        (* rest_framework: IsAuthenticated refused *)
| MethodNotAllowed        (* rest_framework: method outside api_view's list *)
| EmptyPage               (* django.core.paginator *)
| PageNotAnInteger        (* django.core.paginator *)
| AssertionError          (* rest_framework: the view returned no Response *)
| KeyError
| AttributeError
| TypeError
| ValueError
| ZeroDivisionError
| InvalidOperation        (* decimal.Decimal of a text that is no number *)
| DoesNotExist
| MultipleObjectsReturned
| FieldError
| IntegrityError          (* a constraint of the database refused the row *)
| LookupValueError.       (* django.core.exceptions.ValidationError of a lookup value *)

Inductive http_method : Type := GET | POST | PUT | PATCH | DELETE.

Definition method_eqb (a b : http_method) : bool :=
  match a, b with
  | GET, GET | POST, POST | PUT, PUT | PATCH, PATCH | DELETE, DELETE => true
  | _, _ => false
  end.

(** rest_framework.status *)
Definition HTTP_200_OK : Z := 200.
Definition HTTP_201_CREATED : Z := 201.
Definition HTTP_204_NO_CONTENT : Z := 204.
Definition HTTP_205_RESET_CONTENT : Z := 205.
Definition HTTP_400_BAD_REQUEST : Z := 400.
Definition HTTP_401_UNAUTHORIZED : Z := 401.
Definition HTTP_403_FORBIDDEN : Z := 403.
Definition HTTP_404_NOT_FOUND : Z := 404.
Definition HTTP_405_METHOD_NOT_ALLOWED : Z := 405.
Definition HTTP_500_INTERNAL_SERVER_ERROR : Z := 500.

(** ** The data model *)

(** Modelled from the spec: [models.py] is not among the sources.  The rows
    have the fields the spec's data model lists and the serializers name; a
    reference is the primary key of the row it points to, and only
    [delivery_crew] may be null.  Decimal amounts are exact rationals. *)
Record User : Type := mkUser {
  user_id : Z;
  username : string;
  email : string }.

Record Category : Type := mkCategory {
  category_id : Z;
  category_title : string;
  category_slug : string }.

Record MenuItem : Type := mkMenuItem {
  menuitem_id : Z;
  menuitem_title : string;
  menuitem_price : Q;
  menuitem_category : Z;
  menuitem_featured : bool }.

Record Cart : Type := mkCart {
  cart_id : Z;
  cart_user : Z;
  cart_menuitem : Z;
  cart_unit_price : Q;
  cart_quantity : Z;
  cart_price : Q }.

Record Order : Type := mkOrder {
  order_id : Z;
  order_user : Z;
  order_delivery_crew : option Z;
  order_status : Z;
  order_date : string;
  order_total : Q }.

Record OrderItem : Type := mkOrderItem {
  orderitem_id : Z;
  orderitem_order : Z;
  orderitem_menuitem : Z;
  orderitem_quantity : Z;
  orderitem_price : Q }.

Record Rating : Type := mkRating {
  rating_id : Z;
  rating_user : Z;
  rating_menuitem_id : Z;
  rating_rating : Z }.

(** The database: one list of rows per table, in table order; [memberships]
    is the table behind [user.groups] and [group.user_set]. *)
Record DB : Type := mkDB {
  users : list User;
  groups : list string;
  memberships : list (Z * string);
  categories : list Category;
  menuitems_table : list MenuItem;
  carts : list Cart;
  orders : list Order;
  orderitems : list OrderItem;
  ratings : list Rating }.

(** ** The monad of a view: database state and exceptions *)

Inductive res (A : Type) : Type :=
| Ok (a : A)
| Raise (e : exn).
Arguments Ok {A} a.
Arguments Raise {A} e.

Definition M (A : Type) : Type := DB -> res A * DB.

Definition ret {A} (a : A) : M A := fun db => (Ok a, db).
Definition raise {A} (e : exn) : M A := fun db => (Raise e, db).
Definition bind {A B} (m : M A) (k : A -> M B) : M B :=
  fun db => match m db with
            | (Ok a, db') => k a db'
            | (Raise e, db') => (Raise e, db')
            end.
Definition get_db : M DB := fun db => (Ok db, db).
Definition lift {A} (r : res A) : M A := fun db => (r, db).

(** [try: m except e: h] *)
Definition try_except {A} (m : M A) (e : exn -> bool) (h : M A) : M A :=
  fun db => match m db with
            | (Raise x, db') => if e x then h db' else (Raise x, db')
            | r => r
            end.

Declare Scope view_scope.
Delimit Scope view_scope with view.
Notation "x <- m ;; k" := (bind m (fun x => k))
  (at level 61, m at next level, right associativity) : view_scope.
Notation "m ;;; k" := (bind m (fun _ => k))
  (at level 61, right associativity) : view_scope.
Local Open Scope view_scope.

(** ** What the views return *)

(** The body of a response.  A serialized order carries its order items, the
    [orderitem] field of [OrderSerializer]. *)
Inductive payload : Type :=
| Message (s : string)                          (* {"message": s} *)
| Code (n : Z)                                  (* a bare number given as the data *)
| CategoryData (c : Category)
| CategoryList (l : list Category)
| MenuItemData (m : MenuItem)
| MenuItemList (l : list MenuItem)
| UserList (l : list User)
| CartData (c : Cart)
| OrderData (o : Order * list OrderItem)
| OrderList (l : list (Order * list OrderItem))
| RatingData (r : Rating)
| RatingList (l : list Rating).

Record Response : Type := mkResponse {
  response_data : payload;
  response_status : Z }.

(** [Response(data, status)] and [Response(data)]: the first positional
    argument of [rest_framework.response.Response] is the data, and a response
    built without a status is sent as 200. *)
Definition Response2 (data : payload) (status : Z) : Response := mkResponse data status.
Definition Response1 (data : payload) : Response := mkResponse data HTTP_200_OK.

Record Request : Type := mkRequest {
  request_method : http_method;
  request_user : option Z;          (* None: AnonymousUser *)
  request_data : dict;
  request_query_params : query }.

(** The status line the client sees: the response's own, or the one the
    framework's exception handler gives an exception that leaves the view. *)
Definition status_of_exn (e : exn) : Z :=
  match e with
  | Http404 => HTTP_404_NOT_FOUND
  | ValidationError => HTTP_400_BAD_REQUEST
  | NotAuthenticated => HTTP_401_UNAUTHORIZED
  | MethodNotAllowed => HTTP_405_METHOD_NOT_ALLOWED
  | _ => HTTP_500_INTERNAL_SERVER_ERROR
  end.

Definition http_status (r : res Response) : Z :=
  match r with
  | Ok resp => response_status resp
  | Raise e => status_of_exn e
  end.

(** ** The framework's conversions and orderings *)

(** What Django and the database decide and the repository does not: how a
    text or a JSON value converts to a number, a text, a date or a key, how
    the database matches a pattern and orders rows.  [None] is the failure of
    the conversion; for [order_by] it is [FieldError]. *)
Class Framework : Type := {
  py_int : string -> option Z;                (* int(text) *)
  py_Decimal : value -> option Q;             (* decimal.Decimal(x) *)
  lookup_decimal : string -> option Q;        (* the value of a total__lte / price__lte lookup *)
  icontains : string -> string -> bool;       (* icontains pattern text *)
  status_text : Z -> string;                  (* the status column as the pattern sees it *)
  order_by_menuitems : list string -> list MenuItem -> option (list MenuItem);
  order_by_orders : list string -> list Order -> option (list Order);
  to_int : value -> option Z;                 (* IntegerField *)
  to_decimal : value -> option Q;             (* DecimalField *)
  to_text : value -> option string;           (* CharField, SlugField *)
  to_bool : value -> option bool;             (* BooleanField *)
  to_date : value -> option string;           (* DateField *)
  to_pk : value -> option Z;                  (* the key a lookup by pk reads off the value *)
  py_str : value -> string                    (* str(x) *)
}.

(** ** Object-relational helpers *)

Definition in_group (db : DB) (u : option Z) (name : string) : bool :=
  match u with
  | None => false
  | Some uid =>
      existsb (fun m => (fst m =? uid) && String.eqb (snd m) name) (memberships db)
  end.
Arguments in_group : simpl never.

(** [Model.objects.get(...)]: the one row that matches. *)
Definition objects_get {A} (rows : list A) (p : A -> bool) : res A :=
  match filter p rows with
  | [] => Raise DoesNotExist
  | [x] => Ok x
  | _ => Raise MultipleObjectsReturned
  end.

Definition get_object_or_404 {A} (rows : list A) (p : A -> bool) : res A :=
  match filter p rows with
  | [] => Raise Http404
  | [x] => Ok x
  | _ => Raise MultipleObjectsReturned
  end.

(** The key of a new row: one past the largest key of the table. *)
Definition next_id (ids : list Z) : Z := 1 + fold_right Z.max 0 ids.

(** [ordering.split(",")] *)
Fixpoint split_comma (s : string) : list string :=
  match s with
  | EmptyString => [EmptyString]
  | String c s' =>
      if Ascii.eqb c ","%char then EmptyString :: split_comma s'
      else match split_comma s' with
           | [] => [String c EmptyString]
           | w :: ws => String c w :: ws
           end
  end.

(** ** django.core.paginator.Paginator *)

(** [math.ceil(a / b)] for [b <> 0]. *)
Definition ceil_div (a b : Z) : Z := - ((- a) / b).

(** [Paginator.num_pages], with no orphans and an empty first page allowed. *)
Definition Paginator_num_pages (count per_page : Z) : res Z :=
  if per_page =? 0 then Raise ZeroDivisionError
  else Ok (ceil_div (Z.max 1 count) per_page).

(** [object_list[bottom:top]] for [0 <= bottom]. *)
Definition slice {A} (bottom top : Z) (l : list A) : list A :=
  firstn (Z.to_nat (top - bottom)) (skipn (Z.to_nat bottom) l).

(** [Paginator(object_list, per_page).page(number)] for a number that
    [validate_number] has already read as an integer: a number below 1 or
    above [num_pages] is an empty page. *)
Definition Paginator_page {A} (object_list : list A) (per_page number : Z) : res (list A) :=
  if number <? 1 then Raise EmptyPage
  else
    match Paginator_num_pages (Z.of_nat (List.length object_list)) per_page with
    | Raise e => Raise e
    | Ok num_pages =>
        if number >? num_pages then Raise EmptyPage
        else
          let count := Z.of_nat (List.length object_list) in
          let bottom := (number - 1) * per_page in
          let top := bottom + per_page in
          let top := if top >=? count then count else top in
          Ok (slice bottom top object_list)
    end.

(** Writing one table of the database. *)
Definition set_memberships (l : list (Z * string)) (db : DB) : DB :=
  mkDB (users db) (groups db) l (categories db) (menuitems_table db)
       (carts db) (orders db) (orderitems db) (ratings db).
Definition set_categories (l : list Category) (db : DB) : DB :=
  mkDB (users db) (groups db) (memberships db) l (menuitems_table db)
       (carts db) (orders db) (orderitems db) (ratings db).
Definition set_menuitems (l : list MenuItem) (db : DB) : DB :=
  mkDB (users db) (groups db) (memberships db) (categories db) l
       (carts db) (orders db) (orderitems db) (ratings db).
Definition set_carts (l : list Cart) (db : DB) : DB :=
  mkDB (users db) (groups db) (memberships db) (categories db) (menuitems_table db)
       l (orders db) (orderitems db) (ratings db).
Definition set_orders (l : list Order) (db : DB) : DB :=
  mkDB (users db) (groups db) (memberships db) (categories db) (menuitems_table db)
       (carts db) l (orderitems db) (ratings db).
Definition set_orderitems (l : list OrderItem) (db : DB) : DB :=
  mkDB (users db) (groups db) (memberships db) (categories db) (menuitems_table db)
       (carts db) (orders db) l (ratings db).
Definition set_ratings (l : list Rating) (db : DB) : DB :=
  mkDB (users db) (groups db) (memberships db) (categories db) (menuitems_table db)
       (carts db) (orders db) (orderitems db) l.

Definition modify (f : DB -> DB) : M unit := fun db => (Ok tt, f db).

(** [instance.save()] of a row that exists: the rows with its key become it. *)
Definition replace_row {A} (key : A -> Z) (new : A) (rows : list A) : list A :=
  map (fun r => if key r =? key new then new else r) rows.

(** [instance.delete()]: the rows with the key go. *)
Definition delete_row {A} (key : A -> Z) (k : Z) (rows : list A) : list A :=
  filter (fun r => negb (key r =? k)) rows.

(** Modelled from the spec: [models.py] is not among the sources.  A deleted
    row takes the rows that reference it with it: an order owns its order
    items, and carts and order items reference a menu item. *)
Definition delete_menuitem (k : Z) (db : DB) : DB :=
  set_orderitems (filter (fun i => negb (orderitem_menuitem i =? k)) (orderitems db))
    (set_carts (filter (fun c => negb (cart_menuitem c =? k)) (carts db))
       (set_menuitems (delete_row menuitem_id k (menuitems_table db)) db)).

Definition delete_order (k : Z) (db : DB) : DB :=
  set_orderitems (filter (fun i => negb (orderitem_order i =? k)) (orderitems db))
    (set_orders (delete_row order_id k (orders db)) db).

Definition delete_cart (k : Z) (db : DB) : DB :=
  set_carts (delete_row cart_id k (carts db)) db.

(** ** Serializers *)

Section Views.
Context {F : Framework}.

(** A field that does not allow null refuses it before it converts. *)
Definition not_null {A} (conv : value -> option A) (v : value) : option A :=
  match v with
  | VNull => None
  | _ => conv v
  end.

(** One field of [to_internal_value]: the converted value when the data has
    the key; without the key, a partial update or an optional field keeps
    [current] (the instance's value, or the model's default), and a required
    field is an error.  [None] is the field's validation error. *)
Definition field {A} (partial required : bool) (conv : value -> option A)
    (raw : option value) (current : option A) : option A :=
  match raw with
  | Some v => not_null conv v
  | None => if partial || negb required then current else None
  end.

(** The same for a field with [allow_null]. *)
Definition nullable_field {A} (partial required : bool) (conv : value -> option A)
    (raw : option value) (current : option (option A)) : option (option A) :=
  match raw with
  | Some VNull => Some None
  | Some v => option_map Some (conv v)
  | None => if partial || negb required then current else None
  end.

(** [PrimaryKeyRelatedField(queryset=...)]: the key must be a row's. *)
Definition related (keys : list Z) (v : value) : option Z :=
  match to_pk v with
  | Some k => if existsb (Z.eqb k) keys then Some k else None
  | None => None
  end.

(** An integer field with [min_value] and [max_value]. *)
Definition to_int_between (lo hi : Z) (v : value) : option Z :=
  match to_int v with
  | Some n => if (lo <=? n) && (n <=? hi) then Some n else None
  | None => None
  end.

(** [serializers.CurrentUserDefault()]: the user of the request in the
    serializer's context; a serializer built without a context has none. *)
Definition CurrentUserDefault (context : option Z) : res Z :=
  match context with
  | Some u => Ok u
  | None => Raise KeyError
  end.

(** *** CategorySerializer: fields id, title, slug *)

Definition CategorySerializer_is_valid (instance : option Category) (partial : bool)
    (data : dict) : M (string * string) :=
  let title := field partial true to_text (dict_get "title" data)
                 (option_map category_title instance) in
  let slug := field partial true to_text (dict_get "slug" data)
                 (option_map category_slug instance) in
  match title, slug with
  | Some t, Some s => ret (t, s)
  | _, _ => raise ValidationError
  end.

Definition CategorySerializer_save (instance : option Category) (attrs : string * string)
    : M Category :=
  db <- get_db ;;
  match instance with
  | None =>
      let c := mkCategory (next_id (map category_id (categories db))) (fst attrs) (snd attrs) in
      modify (set_categories (categories db ++ [c])) ;;;
      ret c
  | Some old =>
      let c := mkCategory (category_id old) (fst attrs) (snd attrs) in
      modify (set_categories (replace_row category_id c (categories db))) ;;;
      ret c
  end.

(** *** MenuItemSerializer: fields id, title, price, category, featured *)

Definition MenuItemSerializer_is_valid (instance : option MenuItem) (partial : bool)
    (data : dict) : M (string * Q * Z * bool) :=
  db <- get_db ;;
  let title := field partial true to_text (dict_get "title" data)
                 (option_map menuitem_title instance) in
  let price := field partial true to_decimal (dict_get "price" data)
                 (option_map menuitem_price instance) in
  let category := field partial true (related (map category_id (categories db)))
                    (dict_get "category" data) (option_map menuitem_category instance) in
  let featured := field partial true to_bool (dict_get "featured" data)
                    (option_map menuitem_featured instance) in
  match title, price, category, featured with
  | Some t, Some p, Some c, Some f => ret (t, p, c, f)
  | _, _, _, _ => raise ValidationError
  end.

Definition MenuItemSerializer_save (instance : option MenuItem)
    (attrs : string * Q * Z * bool) : M MenuItem :=
  db <- get_db ;;
  let '(t, p, c, f) := attrs in
  match instance with
  | None =>
      let m := mkMenuItem (next_id (map menuitem_id (menuitems_table db))) t p c f in
      modify (set_menuitems (menuitems_table db ++ [m])) ;;;
      ret m
  | Some old =>
      let m := mkMenuItem (menuitem_id old) t p c f in
      modify (set_menuitems (replace_row menuitem_id m (menuitems_table db))) ;;;
      ret m
  end.

(** *** CartSerializer: fields user, menuitem, unit_price, quantity, price *)

(** The validated data of a cart; [price] is read-only, so the fields leave
    it out and [validate] puts it in. *)
Record cart_attrs : Type := mkCartAttrs {
  attrs_user : Z;
  attrs_menuitem : Z;
  attrs_unit_price : Q;
  attrs_quantity : Z;
  attrs_price : option Q }.

(** [def validate(self, attrs)] *)
Definition CartSerializer_validate (attrs : cart_attrs) : cart_attrs :=
  mkCartAttrs (attrs_user attrs) (attrs_menuitem attrs) (attrs_unit_price attrs)
    (attrs_quantity attrs)
    (Some (inject_Z (attrs_quantity attrs) * attrs_unit_price attrs)%Q).

(** [CartSerializer(data=data, context=...).is_valid(raise_exception=True)].
    The [user] field comes first: without the key its default is asked of the
    context, before any other field is looked at. *)
Definition CartSerializer_is_valid (context : option Z) (data : dict) : M cart_attrs :=
  db <- get_db ;;
  user <- match dict_get "user" data with
          | Some v => ret (not_null (related (map user_id (users db))) v)
          | None => u <- lift (CurrentUserDefault context) ;; ret (Some u)
          end ;;
  let menuitem := field false true (related (map menuitem_id (menuitems_table db)))
                    (dict_get "menuitem" data) None in
  let unit_price := field false true to_decimal (dict_get "unit_price" data) None in
  let quantity := field false true to_int (dict_get "quantity" data) None in
  match user, menuitem, unit_price, quantity with
  | Some u, Some m, Some up, Some q =>
      ret (CartSerializer_validate (mkCartAttrs u m up q None))
  | _, _, _, _ => raise ValidationError
  end.

(** [serializer.save()].  Modelled from the spec: a cart is one per user,
    enforced uniquely, so the database refuses a second row of a user. *)
Definition CartSerializer_save (attrs : cart_attrs) : M Cart :=
  db <- get_db ;;
  match attrs_price attrs with
  | None => raise IntegrityError
  | Some p =>
      if existsb (fun c => cart_user c =? attrs_user attrs) (carts db)
      then raise IntegrityError
      else
        let c := mkCart (next_id (map cart_id (carts db))) (attrs_user attrs)
                   (attrs_menuitem attrs) (attrs_unit_price attrs)
                   (attrs_quantity attrs) p in
        modify (set_carts (carts db ++ [c])) ;;;
        ret c
  end.

(** *** OrderItemSerializer: fields order, menuitem, quantity, price *)

Definition OrderItemSerializer_is_valid (data : dict) : M (Z * Z * Z * Q) :=
  db <- get_db ;;
  let order := field false true (related (map order_id (orders db)))
                 (dict_get "order" data) None in
  let menuitem := field false true (related (map menuitem_id (menuitems_table db)))
                    (dict_get "menuitem" data) None in
  let quantity := field false true to_int (dict_get "quantity" data) None in
  let price := field false true to_decimal (dict_get "price" data) None in
  match order, menuitem, quantity, price with
  | Some o, Some m, Some q, Some p => ret (o, m, q, p)
  | _, _, _, _ => raise ValidationError
  end.

Definition OrderItemSerializer_save (attrs : Z * Z * Z * Q) : M OrderItem :=
  db <- get_db ;;
  let '(o, m, q, p) := attrs in
  let i := mkOrderItem (next_id (map orderitem_id (orderitems db))) o m q p in
  modify (set_orderitems (orderitems db ++ [i])) ;;;
  ret i.

(** *** OrderSerializer: fields id, user, delivery_crew, status, date, total, orderitem *)

Record order_attrs : Type := mkOrderAttrs {
  attrs_order_user : Z;
  attrs_delivery_crew : option Z;
  attrs_status : Z;
  attrs_date : string;
  attrs_total : Q }.

(** Modelled from the spec: [models.py] is not among the sources.
    [delivery_crew] is the nullable reference, so it may be left out or null;
    [status] is 0 or 1; [id] and [orderitem] are read-only. *)
Definition OrderSerializer_is_valid (instance : option Order) (partial : bool)
    (data : dict) : M order_attrs :=
  db <- get_db ;;
  let user := field partial true (related (map user_id (users db)))
                (dict_get "user" data) (option_map order_user instance) in
  let delivery_crew := nullable_field partial false (related (map user_id (users db)))
                         (dict_get "delivery_crew" data)
                         (match instance with
                          | Some o => Some (order_delivery_crew o)
                          | None => Some None
                          end) in
  let status := field partial true (to_int_between 0 1) (dict_get "status" data)
                  (option_map order_status instance) in
  let date := field partial true to_date (dict_get "date" data)
                (option_map order_date instance) in
  let total := field partial true to_decimal (dict_get "total" data)
                 (option_map order_total instance) in
  match user, delivery_crew, status, date, total with
  | Some u, Some c, Some s, Some d, Some t => ret (mkOrderAttrs u c s d t)
  | _, _, _, _, _ => raise ValidationError
  end.

Definition OrderSerializer_save (instance : option Order) (attrs : order_attrs) : M Order :=
  db <- get_db ;;
  let row k := mkOrder k (attrs_order_user attrs) (attrs_delivery_crew attrs)
                 (attrs_status attrs) (attrs_date attrs) (attrs_total attrs) in
  match instance with
  | None =>
      let o := row (next_id (map order_id (orders db))) in
      modify (set_orders (orders db ++ [o])) ;;;
      ret o
  | Some old =>
      let o := row (order_id old) in
      modify (set_orders (replace_row order_id o (orders db))) ;;;
      ret o
  end.

(** [OrderSerializer(order).data]: the order with the order items that
    reference it. *)
Definition OrderSerializer_data (db : DB) (o : Order) : Order * list OrderItem :=
  (o, filter (fun i => orderitem_order i =? order_id o) (orderitems db)).

(** *** RatingSerializer: fields user, menuitem_id, rating *)

(** [is_valid]: the fields, with [rating] between 0 and 5, then the
    [UniqueTogetherValidator] over [user] and [menuitem_id].  Modelled from
    the spec: [models.py] is not among the sources; [menuitem_id] is the
    integer column that the serializer names, and it is required. *)
Definition RatingSerializer_is_valid (context : option Z) (data : dict) : M (Z * Z * Z) :=
  db <- get_db ;;
  user <- match dict_get "user" data with
          | Some v => ret (not_null (related (map user_id (users db))) v)
          | None => u <- lift (CurrentUserDefault context) ;; ret (Some u)
          end ;;
  let menuitem_id := field false true to_int (dict_get "menuitem_id" data) None in
  let rating := field false true (to_int_between 0 5) (dict_get "rating" data) None in
  match user, menuitem_id, rating with
  | Some u, Some m, Some r =>
      if existsb (fun x => (rating_user x =? u) && (rating_menuitem_id x =? m)) (ratings db)
      then raise ValidationError
      else ret (u, m, r)
  | _, _, _ => raise ValidationError
  end.

Definition RatingSerializer_save (attrs : Z * Z * Z) : M Rating :=
  db <- get_db ;;
  let '(u, m, r) := attrs in
  let x := mkRating (next_id (map rating_id (ratings db))) u m r in
  modify (set_ratings (ratings db ++ [x])) ;;;
  ret x.

(** ** The views *)

(** [@api_view(methods)] with [@permission_classes([IsAuthenticated])] when
    [authenticated]: the permission is checked first, then the method.  The
    throttles of [@throttle_classes] are left out: a throttled request never
    reaches the view. *)
Definition api_view (http_method_names : list http_method) (authenticated : bool)
    (view : Request -> M Response) (request : Request) : M Response :=
  match authenticated, request_user request with
  | true, None => raise NotAuthenticated
  | _, _ =>
      if existsb (method_eqb (request_method request)) http_method_names
      then view request
      else raise MethodNotAllowed
  end.

(** [request.user.groups.filter(name="Manager").exists()] *)
Definition is_manager (db : DB) (request : Request) : bool :=
  in_group db (request_user request) "Manager".

Definition is_delivery_crew (db : DB) (request : Request) : bool :=
  in_group db (request_user request) "Delivery crew".

(** [row.user == request.user] for a reference that may be null. *)
Definition same_user (a u : option Z) : bool :=
  match a, u with
  | Some x, Some y => x =? y
  | _, _ => false
  end.

(** [request.data[key]] *)
Definition data_item (request : Request) (key : string) : M value :=
  match dict_get key (request_data request) with
  | Some v => ret v
  | None => raise KeyError
  end.

Definition not_authorized : Response :=
  Response2 (Message "You are not authorized.") HTTP_403_FORBIDDEN.

(** [if param: rows = f(param, rows)] for a query parameter. *)
Definition when_given {A} (param : option string) (f : string -> list A -> M (list A))
    (rows : list A) : M (list A) :=
  match param with
  | Some s => if nonempty s then f s rows else ret rows
  | None => ret rows
  end.

(** [request.query_params.get(key, default=n)]: the text of the query, or the
    integer default. *)
Inductive text_or_int : Type :=
| Text (s : string)
| Int (n : Z).

Definition query_get_default (k : string) (q : query) (default : Z) : text_or_int :=
  match query_get k q with
  | Some s => Text s
  | None => Int default
  end.

(** [int(x)] *)
Definition int_of (x : text_or_int) : option Z :=
  match x with
  | Text s => py_int s
  | Int n => Some n
  end.

(** [Paginator(rows, per_page=perpage)] keeps [int(per_page)]. *)
Definition Paginator (per_page : text_or_int) : M Z :=
  match int_of per_page with
  | Some n => ret n
  | None => raise ValueError
  end.

(** [paginator.page(number=page)]: [validate_number] reads the number as an
    integer, then the page is cut. *)
Definition page {A} (rows : list A) (per_page : Z) (number : text_or_int) : M (list A) :=
  match int_of number with
  | Some n => lift (Paginator_page rows per_page n)
  | None => raise PageNotAnInteger
  end.

Definition is_EmptyPage (e : exn) : bool :=
  match e with EmptyPage => true | _ => false end.

(** [rows.filter(price__lte=to_price)] and the like. *)
Definition filter_lte {A} (amount : A -> Q) (to_price : string) (rows : list A) : M (list A) :=
  match lookup_decimal to_price with
  | Some d => ret (filter (fun r => Qle_bool (amount r) d) rows)
  | None => raise LookupValueError
  end.

(** Endpoint /api/category *)
Definition category (request : Request) : M Response :=
  db <- get_db ;;
  if method_eqb (request_method request) GET then
    ret (Response2 (CategoryList (categories db)) HTTP_200_OK)
  else if method_eqb (request_method request) POST && is_manager db request then
    attrs <- CategorySerializer_is_valid None false (request_data request) ;;
    item <- CategorySerializer_save None attrs ;;
    ret (Response2 (CategoryData item) HTTP_201_CREATED)
  else ret not_authorized.

(** Modelled from the spec: [models.py] is not among the sources.  A menu
    item owns its reference to a category, so the category's menu items go
    with it, and with them the rows that reference those. *)
Definition delete_category (k : Z) (db : DB) : DB :=
  fold_right delete_menuitem
    (set_categories (delete_row category_id k (categories db)) db)
    (map menuitem_id (filter (fun m => menuitem_category m =? k) (menuitems_table db))).

(** Endpoint /api/category/{categoryItem} *)
Definition category_single (id : Z) (request : Request) : M Response :=
  db <- get_db ;;
  item <- lift (get_object_or_404 (categories db) (fun c => category_id c =? id)) ;;
  if method_eqb (request_method request) GET then
    ret (Response2 (CategoryData item) HTTP_200_OK)
  else if method_eqb (request_method request) POST then
    ret not_authorized
  else if negb (is_manager db request) then
    ret not_authorized
  else
    match request_method request with
    | PUT =>
        attrs <- CategorySerializer_is_valid (Some item) false (request_data request) ;;
        item' <- CategorySerializer_save (Some item) attrs ;;
        ret (Response2 (CategoryData item') HTTP_205_RESET_CONTENT)
    | PATCH =>
        attrs <- CategorySerializer_is_valid (Some item) true (request_data request) ;;
        item' <- CategorySerializer_save (Some item) attrs ;;
        ret (Response2 (CategoryData item') HTTP_205_RESET_CONTENT)
    | DELETE =>
        modify (delete_category (category_id item)) ;;;
        ret (Response2 (Message (category_title item ++ " is deleted.")) HTTP_204_NO_CONTENT)
    | _ => raise AssertionError
    end.

(** The query set of the GET branch of [menuitems]: the rows that the
    [category], [to_price] and [search] parameters keep, in the order that
    [ordering] asks for. *)
Definition menuitems_queryset (request : Request) : M (list MenuItem) :=
  db <- get_db ;;
  let items := menuitems_table db in
  let category_name := query_get "category" (request_query_params request) in
  let to_price := query_get "to_price" (request_query_params request) in
  let search := query_get "search" (request_query_params request) in
  let ordering := query_get "ordering" (request_query_params request) in
  items <- when_given category_name
             (fun name rows =>
                ret (filter (fun m =>
                       existsb (fun c => (category_id c =? menuitem_category m)
                                         && String.eqb (category_title c) name)
                               (categories db)) rows)) items ;;
  items <- when_given to_price (filter_lte menuitem_price) items ;;
  items <- when_given search
             (fun s rows => ret (filter (fun m => icontains s (menuitem_title m)) rows))
             items ;;
  when_given ordering
    (fun s rows =>
       match order_by_menuitems (split_comma s) rows with
       | Some rows' => ret rows'
       | None => raise FieldError
       end) items.

(** Endpoint /api/menu-items *)
Definition menuitems (request : Request) : M Response :=
  db <- get_db ;;
  if method_eqb (request_method request) GET then
    let perpage := query_get_default "perpage" (request_query_params request) 2 in
    let page_number := query_get_default "page" (request_query_params request) 1 in
    items <- menuitems_queryset request ;;
    paginator <- Paginator perpage ;;
    items <- try_except (page items paginator page_number) is_EmptyPage (ret []) ;;
    ret (Response2 (MenuItemList items) HTTP_200_OK)
  else if method_eqb (request_method request) POST && is_manager db request then
    attrs <- MenuItemSerializer_is_valid None false (request_data request) ;;
    item <- MenuItemSerializer_save None attrs ;;
    ret (Response2 (MenuItemData item) HTTP_201_CREATED)
  else ret not_authorized.

(** Endpoint /api/menu-items/{menuItem} *)
Definition menuitems_single (id : Z) (request : Request) : M Response :=
  db <- get_db ;;
  item <- lift (get_object_or_404 (menuitems_table db) (fun m => menuitem_id m =? id)) ;;
  if method_eqb (request_method request) GET then
    ret (Response2 (MenuItemData item) HTTP_200_OK)
  else if method_eqb (request_method request) POST || negb (is_manager db request) then
    ret not_authorized
  else
    match request_method request with
    | PUT =>
        attrs <- MenuItemSerializer_is_valid (Some item) false (request_data request) ;;
        item' <- MenuItemSerializer_save (Some item) attrs ;;
        ret (Response2 (MenuItemData item') HTTP_205_RESET_CONTENT)
    | PATCH =>
        attrs <- MenuItemSerializer_is_valid (Some item) true (request_data request) ;;
        item' <- MenuItemSerializer_save (Some item) attrs ;;
        ret (Response2 (MenuItemData item') HTTP_205_RESET_CONTENT)
    | DELETE =>
        modify (delete_menuitem (menuitem_id item)) ;;;
        ret (Response1 (Code HTTP_204_NO_CONTENT))
    | _ => raise AssertionError
    end.

(** [Group.objects.get(name=name)] *)
Definition Group_get (name : string) : M string :=
  db <- get_db ;;
  lift (objects_get (groups db) (String.eqb name)).

(** [User.objects.filter(groups=group)] *)
Definition users_in (db : DB) (name : string) : list User :=
  filter (fun u => in_group db (Some (user_id u)) name) (users db).

(** [group.user_set.add(user)] and [group.user_set.remove(user)] *)
Definition user_set_add (name : string) (uid : Z) (db : DB) : DB :=
  if in_group db (Some uid) name then db
  else set_memberships (memberships db ++ [(uid, name)]) db.

Definition user_set_remove (name : string) (uid : Z) (db : DB) : DB :=
  set_memberships
    (filter (fun m => negb ((fst m =? uid) && String.eqb (snd m) name)) (memberships db)) db.

(** The body that [manager_set] and [delivery_set] share but for the group
    and the words of the message.  The list of users is what the views call
    [UserSerializer], the class that serializers.py spells
    [UserSerilializer]. *)
Definition group_set (name words : string) (request : Request) : M Response :=
  db <- get_db ;;
  if negb (is_manager db request) then ret not_authorized
  else
    match request_method request with
    | POST =>
        name_given <- data_item request "username" ;;
        if truthy name_given then
          user <- lift (get_object_or_404 (users db)
                          (fun u => String.eqb (username u) (py_str name_given))) ;;
          Group_get name ;;;
          modify (user_set_add name (user_id user)) ;;;
          match name_given with
          | VStr s => ret (Response2 (Message ("User " ++ s ++ " " ++ words)) HTTP_201_CREATED)
          | _ => raise TypeError
          end
        else
          ret (Response2 (Message "Username is incorrect or not existed.")
                 HTTP_400_BAD_REQUEST)
    | GET =>
        Group_get name ;;;
        ret (Response1 (UserList (users_in db name)))
    | _ => raise AssertionError
    end.

(** The body that [manager_delete] and [delivery_delete] share.  The message
    adds the method [user.get_username] itself to a text, which raises once
    the user has left the group. *)
Definition group_delete (name refusal : string) (id : Z) (request : Request) : M Response :=
  db <- get_db ;;
  if is_manager db request then
    if negb (method_eqb (request_method request) DELETE) then
      ret (Response2 (Message "This endpoint only supports DELETE.") HTTP_400_BAD_REQUEST)
    else
      user <- lift (get_object_or_404 (users db) (fun u => user_id u =? id)) ;;
      if in_group db (Some (user_id user)) name then
        Group_get name ;;;
        modify (user_set_remove name (user_id user)) ;;;
        raise TypeError
      else ret (Response2 (Message refusal) HTTP_400_BAD_REQUEST)
  else ret not_authorized.

(** Endpoint /api/groups/manager/users *)
Definition manager_set : Request -> M Response :=
  group_set "Manager" "is set as manager.".

(** Endpoint /api/groups/manager/users/{userId} *)
Definition manager_delete : Z -> Request -> M Response :=
  group_delete "Manager" "This user is not a manager".

(** Endpoint /api/groups/delivery-crew/users *)
Definition delivery_set : Request -> M Response :=
  group_set "Delivery crew" "is set as delivery crew.".

(** Endpoint /api/groups/delivery-crew/users/{userId} *)
Definition delivery_delete : Z -> Request -> M Response :=
  group_delete "Delivery crew" "This user is not a delivery crew".

(** [queryset.exists()] *)
Definition queryset_exists {A} (rows : list A) : bool :=
  match rows with
  | [] => false
  | _ :: _ => true
  end.

(** [Cart.objects.filter(user=request.user)] *)
Definition carts_of (db : DB) (request : Request) : list Cart :=
  filter (fun c => same_user (Some (cart_user c)) (request_user request)) (carts db).

(** [request.user.id] as a value of a dictionary. *)
Definition user_id_value (request : Request) : value :=
  match request_user request with
  | Some u => VInt u
  | None => VNull
  end.

(** [MenuItem.objects.get(pk=menuitem)] for a value of the request. *)
Definition MenuItem_get (db : DB) (pk : value) : res MenuItem :=
  match pk with
  | VNull => Raise DoesNotExist
  | _ =>
      match to_pk pk with
      | Some k => objects_get (menuitems_table db) (fun m => menuitem_id m =? k)
      | None => Raise ValueError
      end
  end.

(** The dictionary [data] that the POST branch of [cart] builds: the unit
    price is the menu item's, the price the quantity times it. *)
Definition cart_data (request : Request) : M dict :=
  db <- get_db ;;
  menuitem <- data_item request "menuitem" ;;
  quantity <- data_item request "quantity" ;;
  item <- lift (MenuItem_get db menuitem) ;;
  let unit_price := menuitem_price item in
  match py_Decimal quantity with
  | None => raise InvalidOperation
  | Some q =>
      let price := (q * unit_price)%Q in
      ret [ ("menuitem_id", menuitem);
            ("quantity", quantity);
            ("unit_price", VDecimal unit_price);
            ("price", VDecimal price);
            ("user_id", user_id_value request) ]
  end.

(** Endpoint /api/cart/menu-items *)
Definition cart (request : Request) : M Response :=
  db <- get_db ;;
  match request_method request with
  | GET =>
      match objects_get (carts db)
              (fun c => same_user (Some (cart_user c)) (request_user request)) with
      | Ok c => ret (Response2 (CartData c) HTTP_200_OK)
      | Raise _ => ret (Response2 (Message "The cart is empty.") HTTP_400_BAD_REQUEST)
      end
  | POST =>
      if queryset_exists (carts_of db request) then
        ret (Response2 (Message "The user has already a cart.") HTTP_400_BAD_REQUEST)
      else
        data <- cart_data request ;;
        attrs <- CartSerializer_is_valid None data ;;
        CartSerializer_save attrs ;;;
        ret (Response2 (Message "Cart is created.") HTTP_201_CREATED)
  | DELETE =>
      c <- lift (get_object_or_404 (carts db)
                   (fun c => same_user (Some (cart_user c)) (request_user request))) ;;
      modify (delete_cart (cart_id c)) ;;;
      ret (Response1 (Code HTTP_204_NO_CONTENT))
  | _ => raise AssertionError
  end.

(** The dictionaries that the POST branch of [order] builds from the cart. *)
Definition orderitem_data (c : Cart) : dict :=
  [ ("user_id", VInt (cart_user c));
    ("menuitem_id", VInt (cart_menuitem c));
    ("quantity", VInt (cart_quantity c));
    ("unit_price", VDecimal (cart_unit_price c));
    ("price", VDecimal (cart_price c)) ].

Definition order_data (c : Cart) (orderitem : OrderItem) : dict :=
  [ ("user_id", VInt (cart_user c));
    ("total", VDecimal (cart_price c));
    ("orderitem_id", VInt (orderitem_id orderitem)) ].

(** [OrderItem.objects.get(user=request.user, menuitem=cart.menuitem)].
    Modelled from the spec: [models.py] is not among the sources, and an order
    item has the fields order, menuitem, quantity and price, so the keyword
    [user] resolves to no field. *)
Definition OrderItem_get_user_menuitem (request : Request) (c : Cart) : M OrderItem :=
  raise FieldError.

(** [OrderSerializer(queryset).data] without [many=True]: the fields of an
    order are read off the query set, which has none of them. *)
Definition OrderSerializer_data_of_queryset (rows : list Order) : M (Order * list OrderItem) :=
  raise AttributeError.

(** The query set of a Manager in the GET branch of [order]: the orders that
    the [to_price] and [search] parameters keep, in the order that [ordering]
    asks for. *)
Definition orders_queryset (request : Request) : M (list Order) :=
  db <- get_db ;;
  let found := orders db in
  let to_price := query_get "to_price" (request_query_params request) in
  let search := query_get "search" (request_query_params request) in
  let ordering := query_get "ordering" (request_query_params request) in
  found <- when_given to_price (filter_lte order_total) found ;;
  found <- when_given search
             (fun s rows =>
                ret (filter (fun o => icontains s (status_text (order_status o))) rows))
             found ;;
  when_given ordering
    (fun s rows =>
       match order_by_orders (split_comma s) rows with
       | Some rows' => ret rows'
       | None => raise FieldError
       end) found.

(** Endpoint /api/orders *)
Definition order (request : Request) : M Response :=
  db <- get_db ;;
  match request_method request with
  | GET =>
      if is_manager db request then
        let perpage := query_get_default "perpage" (request_query_params request) 2 in
        let page_number := query_get_default "page" (request_query_params request) 1 in
        found <- orders_queryset request ;;
        paginator <- Paginator perpage ;;
        found <- try_except (page found paginator page_number) is_EmptyPage (ret []) ;;
        ret (Response2 (OrderList (map (OrderSerializer_data db) found)) HTTP_200_OK)
      else if is_delivery_crew db request then
        let found :=
          filter (fun o => same_user (order_delivery_crew o) (request_user request))
                 (orders db) in
        ret (Response2 (OrderList (map (OrderSerializer_data db) found)) HTTP_200_OK)
      else
        let own :=
          filter (fun o => same_user (Some (order_user o)) (request_user request))
                 (orders db) in
        if queryset_exists own then
          serialized <- OrderSerializer_data_of_queryset own ;;
          ret (Response2 (OrderData serialized) HTTP_200_OK)
        else ret (Response1 (Code HTTP_404_NOT_FOUND))
  | POST =>
      c <- lift (get_object_or_404 (carts db)
                   (fun c => same_user (Some (cart_user c)) (request_user request))) ;;
      attrs <- OrderItemSerializer_is_valid (orderitem_data c) ;;
      OrderItemSerializer_save attrs ;;;
      orderitem <- OrderItem_get_user_menuitem request c ;;
      attrs <- OrderSerializer_is_valid None false (order_data c orderitem) ;;
      OrderSerializer_save None attrs ;;;
      modify (delete_cart (cart_id c)) ;;;
      ret (Response2 (Message "Order is created.") HTTP_201_CREATED)
  | _ => ret not_authorized
  end.

(** Endpoint /api/orders/{orderId} *)
Definition order_single (id : Z) (request : Request) : M Response :=
  db <- get_db ;;
  o <- lift (get_object_or_404 (orders db) (fun o => order_id o =? id)) ;;
  match request_method request with
  | GET =>
      if negb (same_user (Some (order_user o)) (request_user request)) then
        ret not_authorized
      else ret (Response2 (OrderData (OrderSerializer_data db o)) HTTP_200_OK)
  | PUT =>
      if negb (is_manager db request) then ret not_authorized
      else
        attrs <- OrderSerializer_is_valid (Some o) false (request_data request) ;;
        o' <- OrderSerializer_save (Some o) attrs ;;
        ret (Response2 (OrderData (OrderSerializer_data db o')) HTTP_205_RESET_CONTENT)
  | PATCH =>
      if is_delivery_crew db request then
        if negb (same_user (order_delivery_crew o) (request_user request)) then
          ret not_authorized
        else
          deliverystatus <- data_item request "status" ;;
          let status_data := [("status", deliverystatus)] in
          attrs <- OrderSerializer_is_valid (Some o) true status_data ;;
          o' <- OrderSerializer_save (Some o) attrs ;;
          ret (Response2 (OrderData (OrderSerializer_data db o')) HTTP_205_RESET_CONTENT)
      else if is_manager db request then
        attrs <- OrderSerializer_is_valid (Some o) true (request_data request) ;;
        o' <- OrderSerializer_save (Some o) attrs ;;
        ret (Response2 (OrderData (OrderSerializer_data db o')) HTTP_205_RESET_CONTENT)
      else ret not_authorized
  | DELETE =>
      if negb (is_manager db request) then ret not_authorized
      else
        modify (delete_order (order_id o)) ;;;
        ret (Response1 (Code HTTP_204_NO_CONTENT))
  | POST => raise AssertionError
  end.

(** [RatingsView], a [ListCreateAPIView]: [get_permissions] asks for an
    authenticated user on every method but GET; the generic view lists on GET
    and creates on POST, with the request in the serializer's context. *)
Definition RatingsView (request : Request) : M Response :=
  db <- get_db ;;
  match request_method request, request_user request with
  | GET, _ => ret (Response2 (RatingList (ratings db)) HTTP_200_OK)
  | _, None => raise NotAuthenticated
  | POST, Some u =>
      attrs <- RatingSerializer_is_valid (Some u) (request_data request) ;;
      r <- RatingSerializer_save attrs ;;
      ret (Response2 (RatingData r) HTTP_201_CREATED)
  | _, Some _ => raise MethodNotAllowed
  end.

(** The endpoints of the function views, and the view each runs behind its
    decorators. *)
Inductive endpoint : Type :=
| api_category
| api_category_single (id : Z)
| api_menuitems
| api_menuitems_single (id : Z)
| api_manager_set
| api_manager_delete (id : Z)
| api_delivery_set
| api_delivery_delete (id : Z)
| api_cart
| api_order
| api_order_single (id : Z)
| api_ratings.

Definition serve (e : endpoint) : Request -> M Response :=
  match e with
  | api_category => api_view [GET; POST] true category
  | api_category_single id =>
      api_view [GET; POST; PUT; PATCH; DELETE] true (category_single id)
  | api_menuitems => api_view [GET; POST] false menuitems
  | api_menuitems_single id => api_view [GET; PUT; PATCH; DELETE] false (menuitems_single id)
  | api_manager_set => api_view [GET; POST] true manager_set
  | api_manager_delete id => api_view [DELETE] true (manager_delete id)
  | api_delivery_set => api_view [GET; POST] true delivery_set
  | api_delivery_delete id => api_view [DELETE] true (delivery_delete id)
  | api_cart => api_view [GET; POST; DELETE] true cart
  | api_order => api_view [GET; POST] true order
  | api_order_single id => api_view [GET; PUT; PATCH; DELETE] true (order_single id)
  | api_ratings => RatingsView
  end.

End Views.

(** ** A framework to run the views on

    Decimal numerals in ASCII, patterns matched without regard to the case of
    ASCII letters, rows ordered by the named columns with ties left in table
    order.  The theorems below hold for every [Framework]; this one evaluates
    the views on concrete requests. *)
Module Plain.

Definition int_of_text (s : string) : option Z :=
  option_map Z.of_int (DecimalString.NilZero.int_of_string s).

Definition text_of_int (n : Z) : string :=
  DecimalString.NilZero.string_of_int (Z.to_int n).

(** A numeral with an optional fraction, [12] or [12.50]. *)
Definition decimal_of_text (s : string) : option Q :=
  match String.index 0 "." s with
  | None => option_map inject_Z (int_of_text s)
  | Some i =>
      let whole := String.substring 0 i s in
      let frac := String.substring (S i) (String.length s - S i) s in
      match int_of_text whole, DecimalString.NilZero.uint_of_string frac with
      | Some w, Some f =>
          let scale := 10 ^ Z.of_nat (String.length frac) in
          let part := Z.of_uint f in
          Some (Qmake (if w <? 0 then w * scale - part else w * scale + part)
                      (Z.to_pos scale))
      | _, _ => None
      end
  end.

Definition lower (c : ascii) : ascii :=
  let n := nat_of_ascii c in
  if (Nat.leb 65 n && Nat.leb n 90)%bool then ascii_of_nat (n + 32) else c.

Fixpoint lower_text (s : string) : string :=
  match s with
  | EmptyString => EmptyString
  | String c s' => String (lower c) (lower_text s')
  end.

Fixpoint contains (pattern s : string) : bool :=
  String.prefix pattern s
  || match s with
     | EmptyString => false
     | String _ s' => contains pattern s'
     end.

Definition contains_nocase (pattern s : string) : bool :=
  contains (lower_text pattern) (lower_text s).

(** Stable insertion sort by a three-way comparison. *)
Fixpoint insert_by {A} (cmp : A -> A -> comparison) (x : A) (l : list A) : list A :=
  match l with
  | [] => [x]
  | y :: l' =>
      match cmp x y with
      | Gt => y :: insert_by cmp x l'
      | _ => x :: l
      end
  end.

Definition sort_by {A} (cmp : A -> A -> comparison) (l : list A) : list A :=
  fold_right (insert_by cmp) [] l.

Definition bool_compare (a b : bool) : comparison :=
  match a, b with
  | false, true => Lt
  | true, false => Gt
  | _, _ => Eq
  end.

(** The comparison a field name stands for; a leading [-] reverses it. *)
Definition keyed {A} (column : string -> option (A -> A -> comparison)) (name : string)
    : option (A -> A -> comparison) :=
  match name with
  | String "-" name' => option_map (fun cmp x y => CompOpp (cmp x y)) (column name')
  | _ => column name
  end.

(** [order_by] over several names: the first name decides, the next breaks
    its ties. *)
Fixpoint order_by {A} (column : string -> option (A -> A -> comparison))
    (names : list string) : option (A -> A -> comparison) :=
  match names with
  | [] => Some (fun _ _ => Eq)
  | name :: names' =>
      match keyed column name, order_by column names' with
      | Some cmp, Some rest =>
          Some (fun x y => match cmp x y with Eq => rest x y | c => c end)
      | _, _ => None
      end
  end.

Definition menuitem_column (name : string) : option (MenuItem -> MenuItem -> comparison) :=
  if String.eqb name "id" then Some (fun x y => menuitem_id x ?= menuitem_id y)
  else if String.eqb name "title" then
    Some (fun x y => String.compare (menuitem_title x) (menuitem_title y))
  else if String.eqb name "price" then
    Some (fun x y => Qcompare (menuitem_price x) (menuitem_price y))
  else if String.eqb name "category" then
    Some (fun x y => menuitem_category x ?= menuitem_category y)
  else if String.eqb name "featured" then
    Some (fun x y => bool_compare (menuitem_featured x) (menuitem_featured y))
  else None.

Definition order_column (name : string) : option (Order -> Order -> comparison) :=
  if String.eqb name "id" then Some (fun x y => order_id x ?= order_id y)
  else if String.eqb name "user" then Some (fun x y => order_user x ?= order_user y)
  else if String.eqb name "status" then Some (fun x y => order_status x ?= order_status y)
  else if String.eqb name "date" then
    Some (fun x y => String.compare (order_date x) (order_date y))
  else if String.eqb name "total" then
    Some (fun x y => Qcompare (order_total x) (order_total y))
  else None.

Definition int_of_value (v : value) : option Z :=
  match v with
  | VInt n => Some n
  | VStr s => int_of_text s
  | _ => None
  end.

Definition decimal_of_value (v : value) : option Q :=
  match v with
  | VInt n => Some (inject_Z n)
  | VDecimal d => Some d
  | VStr s => decimal_of_text s
  | _ => None
  end.

Definition text_of_value (v : value) : option string :=
  match v with
  | VStr s => if nonempty s then Some s else None
  | VInt n => Some (text_of_int n)
  | _ => None
  end.

Definition bool_of_value (v : value) : option bool :=
  match v with
  | VBool b => Some b
  | VInt 0 => Some false
  | VInt 1 => Some true
  | _ => None
  end.

(** A date is a text of the length of [YYYY-MM-DD]. *)
Definition date_of_value (v : value) : option string :=
  match v with
  | VStr s => if Nat.eqb (String.length s) 10 then Some s else None
  | _ => None
  end.

Definition str_of_value (v : value) : string :=
  match v with
  | VNull => "None"
  | VBool true => "True"
  | VBool false => "False"
  | VInt n => text_of_int n
  | VDecimal d => text_of_int (Qnum d) ++ "/" ++ text_of_int (Zpos (Qden d))
  | VStr s => s
  end.

#[global] Instance framework : Framework := {|
  py_int := int_of_text;
  py_Decimal := decimal_of_value;
  lookup_decimal := decimal_of_text;
  icontains := contains_nocase;
  status_text := text_of_int;
  order_by_menuitems names rows :=
    option_map (fun cmp => sort_by cmp rows) (order_by menuitem_column names);
  order_by_orders names rows :=
    option_map (fun cmp => sort_by cmp rows) (order_by order_column names);
  to_int := int_of_value;
  to_decimal := decimal_of_value;
  to_text := text_of_value;
  to_bool := bool_of_value;
  to_date := date_of_value;
  to_pk := int_of_value;
  py_str := str_of_value
|}.

End Plain.

(** ** A small restaurant

    Alice and Dave are customers, Bob is a Manager, Carol is Delivery crew.
    Alice has a cart of two plates of pasta; three orders have been placed. *)
Module Sample.

Definition alice : Z := 1.
Definition bob : Z := 2.
Definition carol : Z := 3.
Definition dave : Z := 4.

Definition pasta : MenuItem := mkMenuItem 1 "Pasta" (25 # 2) 1 true.
Definition salad : MenuItem := mkMenuItem 2 "Salad" (7 # 1) 1 false.
Definition soup : MenuItem := mkMenuItem 3 "Soup" (5 # 1) 1 false.

Definition alice_cart : Cart := mkCart 1 alice 1 (25 # 2) 2 (25 # 1).

Definition order1 : Order := mkOrder 1 alice (Some carol) 0 "2023-05-01" (25 # 1).
Definition order2 : Order := mkOrder 2 dave None 0 "2023-05-02" (7 # 1).
Definition order3 : Order := mkOrder 3 alice (Some carol) 1 "2023-05-03" (5 # 1).

Definition item1 : OrderItem := mkOrderItem 1 1 1 2 (25 # 1).
Definition item2 : OrderItem := mkOrderItem 2 2 2 1 (7 # 1).
Definition item3 : OrderItem := mkOrderItem 3 3 3 1 (5 # 1).

Definition db : DB := {|
  users := [ mkUser alice "alice" "alice@example.com";
             mkUser bob "bob" "bob@example.com";
             mkUser carol "carol" "carol@example.com";
             mkUser dave "dave" "dave@example.com" ];
  groups := [ "Manager"; "Delivery crew" ];
  memberships := [ (bob, "Manager"); (carol, "Delivery crew") ];
  categories := [ mkCategory 1 "Mains" "mains" ];
  menuitems_table := [ pasta; salad; soup ];
  carts := [ alice_cart ];
  orders := [ order1; order2; order3 ];
  orderitems := [ item1; item2; item3 ];
  ratings := [ mkRating 1 alice 1 4 ]
|}.

(** A request of a user with a body and no query, and one with a query and
    no body. *)
Definition request_of (method : http_method) (user : Z) (data : dict) : Request :=
  mkRequest method (Some user) data [].

Definition query_of (user : Z) (q : query) : Request :=
  mkRequest GET (Some user) [] q.

End Sample.

(** ** Notions the properties are stated with *)

(** Page [p] of size [k] of a list, pages counted from 1: the rows at the
    positions [(p-1)*k] to [p*k - 1], none before page 1. *)
Definition window {A} (rows : list A) (k p : Z) : list A :=
  if p <? 1 then []
  else firstn (Z.to_nat k) (skipn (Z.to_nat ((p - 1) * k)) rows).

(** An order with another status and nothing else changed. *)
Definition with_status (o : Order) (s : Z) : Order :=
  mkOrder (order_id o) (order_user o) (order_delivery_crew o) s
    (order_date o) (order_total o).

(** price = quantity x unit_price, in every row of the cart table. *)
Definition cart_priced (c : Cart) : Prop :=
  (cart_price c == inject_Z (cart_quantity c) * cart_unit_price c)%Q.

Definition carts_priced (db : DB) : Prop := Forall cart_priced (carts db).

(** No user has two carts. *)
Definition one_cart_per_user (db : DB) : Prop :=
  forall u : Z,
    (List.length (filter (fun c => (cart_user c =? u)%Z) (carts db)) <= 1)%nat.

(** The user a rating is for: the one the body names, or the requester. *)
Definition rating_user_of {F : Framework} (db : DB) (requester : Z) (data : dict)
    : option Z :=
  match dict_get "user" data with
  | Some v => not_null (related (map user_id (users db))) v
  | None => Some requester
  end.

(** A rating of this user for this menu item is in the table. *)
Definition rated (db : DB) (u m : Z) : bool :=
  existsb (fun x => (rating_user x =? u) && (rating_menuitem_id x =? m)) (ratings db).

(** The requests that the role rules of the views deny, for a requester who
    is authenticated and a row that exists: writing categories, menu items
    and the group rosters is for Managers, as are PUT and DELETE of an order;
    PATCH of an order is for its delivery crew and for Managers; GET of an
    order is for its user. *)
Definition denied_by_role (db : DB) (e : endpoint) (request : Request) : bool :=
  let manager := is_manager db request in
  match e, request_method request with
  | api_category, POST => negb manager
  | api_category_single id, (PUT | PATCH | DELETE) =>
      match get_object_or_404 (categories db) (fun c => category_id c =? id) with
      | Ok _ => negb manager
      | Raise _ => false
      end
  | api_menuitems, POST => negb manager
  | api_menuitems_single id, (PUT | PATCH | DELETE) =>
      match get_object_or_404 (menuitems_table db) (fun m => menuitem_id m =? id) with
      | Ok _ => negb manager
      | Raise _ => false
      end
  | (api_manager_set | api_delivery_set), (GET | POST) => negb manager
  | (api_manager_delete _ | api_delivery_delete _), DELETE => negb manager
  | api_order_single id, method =>
      match get_object_or_404 (orders db) (fun o => order_id o =? id) with
      | Ok o =>
          match method with
          | GET => negb (same_user (Some (order_user o)) (request_user request))
          | PUT | DELETE => negb manager
          | PATCH =>
              if is_delivery_crew db request
              then negb (same_user (order_delivery_crew o) (request_user request))
              else negb manager
          | POST => false
          end
      | Raise _ => false
      end
  | _, _ => false
  end.

(** A computation that reads the database and leaves it as it was. *)
Definition reads {A} (m : M A) : Prop := forall db, snd (m db) = db.

(** A computation that never answers Forbidden, and one that changes nothing
    when it does. *)
Definition never_forbidden (m : M Response) : Prop :=
  forall db, http_status (fst (m db)) <> HTTP_403_FORBIDDEN.

Definition forbidden_is_quiet (m : M Response) : Prop :=
  forall db, http_status (fst (m db)) = HTTP_403_FORBIDDEN -> snd (m db) = db.

(** A computation that keeps a property of the database. *)
Definition keeps {A} (P : DB -> Prop) (m : M A) : Prop :=
  forall db, P db -> P (snd (m db)).

(** The cart table of [db'] is the one of [db] with some rows removed. *)
Definition carts_removed (db db' : DB) : Prop :=
  exists keep : Cart -> bool, carts db' = filter keep (carts db).

(** The tables that only Managers write: users, groups and their rosters,
    categories and menu items. *)
Definition catalog (db : DB)
    : list User * list string * list (Z * string) * list Category * list MenuItem :=
  (users db, groups db, memberships db, categories db, menuitems_table db).

(** A computation that leaves a part of the database as it was. *)
Definition frames {T A} (part : DB -> T) (m : M A) : Prop :=
  forall db, part (snd (m db)) = part db.

(** The category of a menu item is a row of the category table. *)
Definition category_known (db : DB) (m : MenuItem) : bool :=
  existsb (Z.eqb (menuitem_category m)) (map category_id (categories db)).

Definition menu_categories_exist (db : DB) : Prop :=
  Forall (fun m => category_known db m = true) (menuitems_table db).

(** * Properties *)

Unset Implicit Arguments.

(** ** Pagination *)

Lemma ceil_div_covers (a k : Z) : 0 < k -> a <= ceil_div a k * k.
Proof.
  intros Hk. unfold ceil_div.
  pose proof (Z.mul_div_le (- a) k Hk). lia.
Qed.

Lemma ceil_div_negative (a k : Z) : 0 < a -> k < 0 -> ceil_div a k <= 0.
Proof.
  intros Ha Hk. unfold ceil_div.
  pose proof (Z.div_mod (- a) k ltac:(lia)).
  pose proof (Z.mod_neg_bound (- a) k Hk).
  nia.
Qed.

Lemma skipn_past_end {A} (l : list A) (n : nat) :
  (List.length l <= n)%nat -> skipn n l = [].
Proof. intros H. now apply skipn_all2. Qed.

Lemma slice_window {A} (l : list A) (k bottom : Z) :
  0 <= bottom -> 0 <= k ->
  slice bottom
    (if bottom + k >=? Z.of_nat (List.length l) then Z.of_nat (List.length l) else bottom + k) l
  = firstn (Z.to_nat k) (skipn (Z.to_nat bottom) l).
Proof.
  intros Hb Hk. unfold slice.
  destruct (bottom + k >=? Z.of_nat (List.length l)) eqn:E.
  - apply Z.geb_le in E.
    rewrite !firstn_all2; trivial; rewrite length_skipn; lia.
  - f_equal. lia.
Qed.

(** The page the views show: the window, and nothing for a number that
    [Paginator.page] refuses as an empty page. *)
Lemma Paginator_page_window {A} (l : list A) (k p : Z) (db : DB) :
  k <> 0 ->
  try_except (lift (Paginator_page l k p)) is_EmptyPage (ret []) db
  = (Ok (window l k p), db).
Proof.
  intros Hk. unfold try_except, lift, ret, window, Paginator_page, Paginator_num_pages.
  destruct (p <? 1) eqn:Ep; simpl; trivial.
  apply Z.ltb_ge in Ep.
  replace (k =? 0) with false by (symmetry; apply Z.eqb_neq; lia).
  destruct (p >? ceil_div (Z.max 1 (Z.of_nat (List.length l))) k) eqn:En; simpl.
  - apply Z.gtb_lt in En.
    destruct (Z.lt_total k 0) as [Hneg | [Hzero | Hpos]]; [ | lia | ].
    + now replace (Z.to_nat k) with 0%nat by lia.
    + pose proof (ceil_div_covers (Z.max 1 (Z.of_nat (List.length l))) k Hpos).
      rewrite skipn_past_end; [ now rewrite firstn_nil | nia ].
  - assert (Hpos : 0 < k).
    { destruct (Z.lt_total k 0) as [Hneg | [Hzero | Hpos]]; [ | lia | trivial ].
      pose proof (ceil_div_negative (Z.max 1 (Z.of_nat (List.length l))) k
                    ltac:(lia) Hneg).
      rewrite Z.gtb_ltb in En. apply Z.ltb_ge in En. lia. }
    rewrite slice_window; trivial; nia.
Qed.

Lemma window_first_page {A} (l : list A) (k : Z) :
  window l k 1 = firstn (Z.to_nat k) l.
Proof. reflexivity. Qed.

Lemma window_past_last {A} (l : list A) (k p last : Z) :
  k <> 0 ->
  Paginator_num_pages (Z.of_nat (List.length l)) k = Ok last ->
  last < p ->
  window l k p = [].
Proof.
  intros Hk Hlast Hp. unfold Paginator_num_pages in Hlast.
  replace (k =? 0) with false in Hlast by (symmetry; apply Z.eqb_neq; lia).
  injection Hlast as <-.
  unfold window. destruct (p <? 1); trivial.
  destruct (Z.lt_total k 0) as [Hneg | [Hzero | Hpos]]; [ | lia | ].
  - now replace (Z.to_nat k) with 0%nat by lia.
  - pose proof (ceil_div_covers (Z.max 1 (Z.of_nat (List.length l))) k Hpos).
    rewrite skipn_past_end; [ apply firstn_nil | nia ].
Qed.

(** ** Computations that only read *)

Lemma reads_ret {A} (a : A) : reads (ret a).
Proof. intros db. reflexivity. Qed.

Lemma reads_raise {A} (e : exn) : reads (@raise A e).
Proof. intros db. reflexivity. Qed.

Lemma reads_lift {A} (r : res A) : reads (lift r).
Proof. intros db. reflexivity. Qed.

Lemma reads_get_db : reads get_db.
Proof. intros db. reflexivity. Qed.

Lemma reads_bind {A B} (m : M A) (k : A -> M B) :
  reads m -> (forall a, reads (k a)) -> reads (bind m k).
Proof.
  intros Hm Hk db. unfold bind. specialize (Hm db).
  destruct (m db) as [[a | e] db']; simpl in *; subst; trivial. apply Hk.
Qed.

Lemma reads_try_except {A} (m : M A) (e : exn -> bool) (h : M A) :
  reads m -> reads h -> reads (try_except m e h).
Proof.
  intros Hm Hh db. unfold try_except. specialize (Hm db).
  destruct (m db) as [[a | x] db']; simpl in *; subst; trivial.
  destruct (e x); simpl; trivial.
Qed.

Lemma reads_when_given {A} (param : option string)
    (f : string -> list A -> M (list A)) (rows : list A) :
  (forall s l, reads (f s l)) -> reads (when_given param f rows).
Proof.
  intros Hf. unfold when_given. destruct param as [s |]; [ | apply reads_ret ].
  destruct (nonempty s); [ apply Hf | apply reads_ret ].
Qed.

(** Breaks a computation down along its binds and branches. *)
Ltac reads_step :=
  first
    [ apply reads_ret | apply reads_raise | apply reads_lift | apply reads_get_db
    | apply reads_bind; [ | intros ? ]
    | apply reads_try_except
    | apply reads_when_given; intros ? ?
    | match goal with
      | |- reads (match ?x with _ => _ end) => destruct x
      | |- reads (if ?x then _ else _) => destruct x
      | |- reads (let '(_, _) := ?x in _) => destruct x
      end ].

Ltac reads_all := repeat reads_step.

Section Reading.
Context {F : Framework}.

Lemma reads_filter_lte {A} (amount : A -> Q) (s : string) (rows : list A) :
  reads (filter_lte amount s rows).
Proof. unfold filter_lte. reads_all. Qed.

Lemma reads_menuitems_queryset (request : Request) : reads (menuitems_queryset request).
Proof. unfold menuitems_queryset. reads_all; apply reads_filter_lte. Qed.

Lemma reads_orders_queryset (request : Request) : reads (orders_queryset request).
Proof. unfold orders_queryset. reads_all; apply reads_filter_lte. Qed.

Lemma reads_Paginator (x : text_or_int) : reads (Paginator x).
Proof. unfold Paginator. reads_all. Qed.

Lemma reads_page {A} (rows : list A) (k : Z) (x : text_or_int) : reads (page rows k x).
Proof. unfold page. reads_all. Qed.

Lemma reads_data_item (request : Request) (key : string) : reads (data_item request key).
Proof. unfold data_item. reads_all. Qed.

Lemma reads_CategorySerializer_is_valid i p d : reads (CategorySerializer_is_valid i p d).
Proof. unfold CategorySerializer_is_valid. reads_all. Qed.

Lemma reads_MenuItemSerializer_is_valid i p d : reads (MenuItemSerializer_is_valid i p d).
Proof. unfold MenuItemSerializer_is_valid. reads_all. Qed.

Lemma reads_CartSerializer_is_valid c d : reads (CartSerializer_is_valid c d).
Proof. unfold CartSerializer_is_valid. reads_all. Qed.

Lemma reads_OrderItemSerializer_is_valid d : reads (OrderItemSerializer_is_valid d).
Proof. unfold OrderItemSerializer_is_valid. reads_all. Qed.

Lemma reads_OrderSerializer_is_valid i p d : reads (OrderSerializer_is_valid i p d).
Proof. unfold OrderSerializer_is_valid. reads_all. Qed.

Lemma reads_RatingSerializer_is_valid c d : reads (RatingSerializer_is_valid c d).
Proof. unfold RatingSerializer_is_valid. reads_all. Qed.

Lemma reads_cart_data (request : Request) : reads (cart_data request).
Proof. unfold cart_data. reads_all; apply reads_data_item. Qed.

Lemma reads_Group_get (name : string) : reads (Group_get name).
Proof. unfold Group_get. reads_all. Qed.

End Reading.

(** ** The menu-items list is paged *)

(** What a view makes of a computation whose value and effect are known. *)
Lemma bind_of {A B} (m : M A) (k : A -> M B) (db db' : DB) (a : A) :
  m db = (Ok a, db') -> bind m k db = k a db'.
Proof. intros H. unfold bind. now rewrite H. Qed.

Lemma reads_value {A} (m : M A) (db : DB) (r : res A) :
  reads m -> fst (m db) = r -> m db = (r, db).
Proof.
  intros Hm Hr. specialize (Hm db). destruct (m db) as [r' db']. simpl in *. now subst.
Qed.

(** C6: a GET of the menu-items list answers with one page of the query set:
    page [p] of size [k], pages counted from 1, where [k] is the [perpage]
    parameter, or 2 without it, and [p] is the [page] parameter, or 1 without
    it; page 1 starts at the first row, and a page past the last one is the
    empty list, sent with 200 like every other page.  The page size is a
    positive integer. *)
Theorem menuitems_paged {F : Framework} (db : DB) (request : Request)
    (items : list MenuItem) (k p : Z) :
  request_method request = GET ->
  fst (menuitems_queryset request db) = Ok items ->
  int_of (query_get_default "perpage" (request_query_params request) 2) = Some k ->
  int_of (query_get_default "page" (request_query_params request) 1) = Some p ->
  1 <= k ->
  serve api_menuitems request db
    = (Ok (Response2 (MenuItemList (window items k p)) HTTP_200_OK), db)
  /\ (query_get "perpage" (request_query_params request) = None -> k = 2)
  /\ (query_get "page" (request_query_params request) = None -> p = 1)
  /\ window items k 1 = firstn (Z.to_nat k) items
  /\ (forall last,
        Paginator_num_pages (Z.of_nat (List.length items)) k = Ok last ->
        last < p -> window items k p = []).
Proof.
  intros Hmethod Hitems Hk Hp Hpos.
  apply reads_value in Hitems; [ | apply reads_menuitems_queryset ].
  repeat split.
  - unfold serve, api_view, menuitems. rewrite Hmethod. simpl.
    unfold bind at 1. simpl.
    rewrite (bind_of _ _ _ _ _ Hitems).
    unfold Paginator. rewrite Hk. unfold bind at 1. simpl.
    unfold page. rewrite Hp.
    unfold bind. rewrite Paginator_page_window by lia. reflexivity.
  - intros Habsent. unfold query_get_default in Hk. rewrite Habsent in Hk.
    simpl in Hk. congruence.
  - intros Habsent. unfold query_get_default in Hp. rewrite Habsent in Hp.
    simpl in Hp. congruence.
  - intros last Hlast Hpast. apply window_past_last with (last := last); trivial. lia.
Qed.

(** Carol asks for page 3 of the three menu items, two to a page. *)
Lemma menuitems_paged_witness :
  request_method (Sample.query_of Sample.carol [("page", "3")]) = GET
  /\ fst (menuitems_queryset (Sample.query_of Sample.carol [("page", "3")]) Sample.db)
     = Ok [Sample.pasta; Sample.salad; Sample.soup]
  /\ 1 <= 2
  /\ serve api_menuitems (Sample.query_of Sample.carol [("page", "3")]) Sample.db
     = (Ok (Response2 (MenuItemList []) HTTP_200_OK), Sample.db).
Proof.
  split; [ reflexivity | split; [ reflexivity | split; [ lia | ] ] ].
  refine (proj1 (menuitems_paged Sample.db (Sample.query_of Sample.carol [("page", "3")])
                   [Sample.pasta; Sample.salad; Sample.soup] 2 3 _ _ _ _ _));
    try reflexivity.
  lia.
Defined.

(** ** Who sees which orders *)

Lemma window_holds_all {A} (l : list A) (k : Z) :
  Z.of_nat (List.length l) <= k -> window l k 1 = l.
Proof. intros H. rewrite window_first_page. apply firstn_all2. lia. Qed.

Lemma filter_same_user_crew (u : Z) (rows : list Order) (o : Order) :
  In o (filter (fun o => same_user (order_delivery_crew o) (Some u)) rows)
  <-> In o rows /\ order_delivery_crew o = Some u.
Proof.
  rewrite filter_In. unfold same_user.
  destruct (order_delivery_crew o) as [c |]; split; intros [Hin H]; split; trivial;
    try discriminate.
  - apply Z.eqb_eq in H. now subst.
  - injection H as ->. apply Z.eqb_refl.
Qed.

(** The manager's query set without [to_price], [search] and [ordering] is
    the order table. *)
Lemma orders_queryset_plain {F : Framework} (request : Request) (db : DB) :
  query_get "to_price" (request_query_params request) = None ->
  query_get "search" (request_query_params request) = None ->
  query_get "ordering" (request_query_params request) = None ->
  orders_queryset request db = (Ok (orders db), db).
Proof.
  intros H1 H2 H3. unfold orders_queryset. rewrite H1, H2, H3. reflexivity.
Qed.

(** C3, as the code has it: on GET /orders a Manager receives one page of the
    orders, page [p] (the [page] parameter, 1 without it) of size [k] (the
    [perpage] parameter, 2 without it) of the query set, which is every order
    when the request gives no [to_price], [search] or [ordering]; the page
    holds them all only when they fit on it.  A Delivery crew member who is no
    Manager receives exactly the orders whose delivery crew is that member. *)
Theorem orders_by_role {F : Framework} (db : DB) (request : Request) (u : Z) :
  request_method request = GET ->
  request_user request = Some u ->
  (in_group db (Some u) "Manager" = true ->
   forall (found : list Order) (k p : Z),
     fst (orders_queryset request db) = Ok found ->
     int_of (query_get_default "perpage" (request_query_params request) 2) = Some k ->
     int_of (query_get_default "page" (request_query_params request) 1) = Some p ->
     1 <= k ->
     serve api_order request db
       = (Ok (Response2 (OrderList (map (OrderSerializer_data db) (window found k p)))
                HTTP_200_OK), db)
     /\ (query_get "to_price" (request_query_params request) = None ->
         query_get "search" (request_query_params request) = None ->
         query_get "ordering" (request_query_params request) = None ->
         found = orders db)
     /\ (p = 1 -> Z.of_nat (List.length found) <= k -> window found k p = found))
  /\ (in_group db (Some u) "Manager" = false ->
      in_group db (Some u) "Delivery crew" = true ->
      exists seen : list Order,
        serve api_order request db
          = (Ok (Response2 (OrderList (map (OrderSerializer_data db) seen)) HTTP_200_OK), db)
        /\ seen = filter (fun o => same_user (order_delivery_crew o) (Some u)) (orders db)
        /\ forall o, In o seen <-> In o (orders db) /\ order_delivery_crew o = Some u).
Proof.
  intros Hmethod Huser. split.
  - intros Hmanager found k p Hfound Hk Hp Hpos.
    apply reads_value in Hfound; [ | apply reads_orders_queryset ].
    repeat split.
    + unfold serve, api_view, order, is_manager. rewrite Hmethod, Huser. simpl.
      unfold bind at 1. simpl. rewrite Hmanager.
      rewrite (bind_of _ _ _ _ _ Hfound).
      unfold Paginator. rewrite Hk. unfold bind at 1. simpl.
      unfold page. rewrite Hp.
      unfold bind. rewrite Paginator_page_window by lia. reflexivity.
    + intros H1 H2 H3. rewrite (orders_queryset_plain request db H1 H2 H3) in Hfound.
      congruence.
    + intros -> Hfit. now apply window_holds_all.
  - intros Hmanager Hcrew.
    exists (filter (fun o => same_user (order_delivery_crew o) (Some u)) (orders db)).
    split; [ | split; [ reflexivity | intros o; apply filter_same_user_crew ] ].
    unfold serve, api_view, order, is_manager, is_delivery_crew.
    rewrite Hmethod, Huser. simpl. unfold bind, get_db, ret. simpl.
    now rewrite Hmanager, Hcrew.
Qed.

(** Bob, a Manager, and Carol, of the Delivery crew, list the orders. *)
Lemma orders_by_role_witness :
  request_method (Sample.query_of Sample.bob []) = GET
  /\ in_group Sample.db (Some Sample.bob) "Manager" = true
  /\ 1 <= 2
  /\ serve api_order (Sample.query_of Sample.bob []) Sample.db
     = (Ok (Response2
              (OrderList (map (OrderSerializer_data Sample.db)
                            [Sample.order1; Sample.order2])) HTTP_200_OK), Sample.db).
Proof.
  split; [ reflexivity | split; [ reflexivity | split; [ lia | ] ] ].
  refine (proj1 (proj1 (orders_by_role Sample.db (Sample.query_of Sample.bob [])
                          Sample.bob _ _) _
                   [Sample.order1; Sample.order2; Sample.order3] 2 1 _ _ _ _));
    try reflexivity.
  lia.
Defined.

(** C3 as stated fails: a Manager does not receive all orders.  Bob is a
    Manager, the table holds three orders, and his GET /orders answers with
    the first two. *)
Lemma manager_does_not_see_all_orders :
  in_group Sample.db (Some Sample.bob) "Manager" = true
  /\ orders Sample.db = [Sample.order1; Sample.order2; Sample.order3]
  /\ fst (serve api_order (Sample.query_of Sample.bob []) Sample.db)
     = Ok (Response2
             (OrderList [ (Sample.order1, [Sample.item1]); (Sample.order2, [Sample.item2]) ])
             HTTP_200_OK).
Proof. repeat split. Qed.

(** ** A single order *)

Lemma get_object_or_404_row {A} (rows : list A) (p : A -> bool) (x : A) :
  get_object_or_404 rows p = Ok x ->
  filter p rows = [x].
Proof.
  unfold get_object_or_404. destruct (filter p rows) as [| y [| z l]]; congruence.
Qed.

Lemma get_object_or_404_holds {A} (rows : list A) (p : A -> bool) (x : A) :
  get_object_or_404 rows p = Ok x -> In x rows /\ p x = true.
Proof.
  intros H. apply get_object_or_404_row in H.
  apply filter_In. rewrite H. now left.
Qed.

Lemma get_object_or_404_only {A} (rows : list A) (p : A -> bool) (x y : A) :
  get_object_or_404 rows p = Ok x -> In y rows -> p y = true -> y = x.
Proof.
  intros H Hin Hp. apply get_object_or_404_row in H.
  assert (Hy : In y (filter p rows)) by (apply filter_In; now split).
  rewrite H in Hy. destruct Hy as [-> | []]. reflexivity.
Qed.

(** C10: GET /orders/{id} of an order that exists answers Forbidden, and
    changes nothing, whenever the requester is not the order's user, whatever
    groups the requester is in; the owner receives the serialized order. *)
Theorem order_single_get_owner_only {F : Framework} (db : DB) (id u : Z)
    (data : dict) (q : query) (o : Order) :
  get_object_or_404 (orders db) (fun x => order_id x =? id) = Ok o ->
  (order_user o <> u ->
   serve (api_order_single id) (mkRequest GET (Some u) data q) db
     = (Ok not_authorized, db))
  /\ (order_user o = u ->
      serve (api_order_single id) (mkRequest GET (Some u) data q) db
        = (Ok (Response2 (OrderData (OrderSerializer_data db o)) HTTP_200_OK), db)).
Proof.
  intros Ho.
  assert (Hrun : serve (api_order_single id) (mkRequest GET (Some u) data q) db
                 = (if negb (order_user o =? u)
                    then (Ok not_authorized, db)
                    else (Ok (Response2 (OrderData (OrderSerializer_data db o)) HTTP_200_OK),
                          db))).
  { unfold serve, api_view, order_single. simpl.
    unfold bind, get_db, lift. simpl. rewrite Ho. simpl.
    destruct (order_user o =? u); reflexivity. }
  rewrite Hrun. split; intros Hu.
  - apply Z.eqb_neq in Hu. now rewrite Hu.
  - apply Z.eqb_eq in Hu. now rewrite Hu.
Qed.

(** Bob is a Manager and Carol delivers order 1; the order is Alice's, and
    both are refused. *)
Lemma order_single_get_owner_only_witness :
  get_object_or_404 (orders Sample.db) (fun x => order_id x =? 1) = Ok Sample.order1
  /\ in_group Sample.db (Some Sample.bob) "Manager" = true
  /\ order_delivery_crew Sample.order1 = Some Sample.carol
  /\ serve (api_order_single 1) (mkRequest GET (Some Sample.bob) [] []) Sample.db
     = (Ok not_authorized, Sample.db)
  /\ serve (api_order_single 1) (mkRequest GET (Some Sample.carol) [] []) Sample.db
     = (Ok not_authorized, Sample.db).
Proof.
  do 3 (split; [ reflexivity | ]). split.
  - refine (proj1 (order_single_get_owner_only Sample.db 1 Sample.bob [] []
                     Sample.order1 _) _); [ reflexivity | discriminate ].
  - refine (proj1 (order_single_get_owner_only Sample.db 1 Sample.carol [] []
                     Sample.order1 _) _); [ reflexivity | discriminate ].
Defined.

Lemma replace_row_status_only (rows : list Order) (id s : Z) (o : Order) :
  get_object_or_404 rows (fun x => order_id x =? id) = Ok o ->
  map (fun x => with_status x 0) (replace_row order_id (with_status o s) rows)
  = map (fun x => with_status x 0) rows.
Proof.
  intros Ho. unfold replace_row. rewrite map_map. apply map_ext_in.
  intros x Hx. simpl.
  destruct (get_object_or_404_holds _ _ _ Ho) as [_ Hid]. apply Z.eqb_eq in Hid.
  destruct (order_id x =? order_id o) eqn:E; trivial.
  rewrite Hid in E.
  rewrite (get_object_or_404_only _ _ _ x Ho Hx E). reflexivity.
Qed.

(** C2: a PATCH of an order by a member of the Delivery crew.  When the
    order's delivery crew is not the requester the answer is Forbidden and
    nothing changes.  When it is the requester, the request either fails
    without a change (no [status] in the body, or a status that is not 0 or
    1), or succeeds by putting the order with the new status, and all its
    other fields as they were, in place of the order; in every case the other
    tables are untouched and the orders are as before but for the status. *)
Theorem crew_patch_status_only {F : Framework} (db : DB) (id u : Z)
    (data : dict) (q : query) (o : Order) :
  get_object_or_404 (orders db) (fun x => order_id x =? id) = Ok o ->
  in_group db (Some u) "Delivery crew" = true ->
  (order_delivery_crew o <> Some u ->
   serve (api_order_single id) (mkRequest PATCH (Some u) data q) db
     = (Ok not_authorized, db))
  /\ (order_delivery_crew o = Some u ->
      serve (api_order_single id) (mkRequest PATCH (Some u) data q) db
        = match dict_get "status" data with
          | None => (Raise KeyError, db)
          | Some v =>
              match not_null (to_int_between 0 1) v with
              | None => (Raise ValidationError, db)
              | Some s =>
                  (Ok (Response2 (OrderData (OrderSerializer_data db (with_status o s)))
                         HTTP_205_RESET_CONTENT),
                   set_orders (replace_row order_id (with_status o s) (orders db)) db)
              end
          end
      /\ snd (serve (api_order_single id) (mkRequest PATCH (Some u) data q) db)
         = set_orders
             (orders (snd (serve (api_order_single id) (mkRequest PATCH (Some u) data q) db)))
             db
      /\ map (fun x => with_status x 0)
           (orders (snd (serve (api_order_single id) (mkRequest PATCH (Some u) data q) db)))
         = map (fun x => with_status x 0) (orders db)).
Proof.
  intros Ho Hcrew. split.
  - intros Hother.
    unfold serve, api_view, order_single, is_delivery_crew. simpl.
    unfold bind, get_db, lift. simpl. rewrite Ho, Hcrew. simpl.
    destruct (order_delivery_crew o) as [c |]; simpl; trivial.
    destruct (c =? u) eqn:E; trivial.
    apply Z.eqb_eq in E. congruence.
  - intros Hmine.
    assert (Hrun : serve (api_order_single id) (mkRequest PATCH (Some u) data q) db
                   = match dict_get "status" data with
                     | None => (Raise KeyError, db)
                     | Some v =>
                         match not_null (to_int_between 0 1) v with
                         | None => (Raise ValidationError, db)
                         | Some s =>
                             (Ok (Response2
                                    (OrderData (OrderSerializer_data db (with_status o s)))
                                    HTTP_205_RESET_CONTENT),
                              set_orders
                                (replace_row order_id (with_status o s) (orders db)) db)
                         end
                     end).
    { unfold serve, api_view, order_single, is_delivery_crew, data_item. simpl.
      unfold bind, get_db, lift. simpl. rewrite Ho, Hcrew, Hmine. simpl.
      rewrite Z.eqb_refl. simpl.
      destruct (dict_get "status" data) as [v |]; trivial. simpl.
      unfold OrderSerializer_is_valid, bind, get_db. simpl.
      destruct (not_null (to_int_between 0 1) v) as [s |]; reflexivity. }
    rewrite Hrun. split; trivial.
    destruct (dict_get "status" data) as [v |]; simpl;
      [ destruct (not_null (to_int_between 0 1) v) as [s |]; simpl | ];
      try (split; [ now destruct db | reflexivity ]).
    split; [ reflexivity | ].
    now apply replace_row_status_only with (id := id).
Qed.

(** Carol delivers order 1 and marks it delivered; Carol does not deliver
    order 2 and is refused. *)
Lemma crew_patch_status_only_witness :
  get_object_or_404 (orders Sample.db) (fun x => order_id x =? 1) = Ok Sample.order1
  /\ in_group Sample.db (Some Sample.carol) "Delivery crew" = true
  /\ order_delivery_crew Sample.order1 = Some Sample.carol
  /\ serve (api_order_single 1)
       (mkRequest PATCH (Some Sample.carol) [("status", VInt 1); ("total", VInt 0)] [])
       Sample.db
     = (Ok (Response2
              (OrderData (with_status Sample.order1 1, [Sample.item1]))
              HTTP_205_RESET_CONTENT),
        set_orders [with_status Sample.order1 1; Sample.order2; Sample.order3] Sample.db).
Proof.
  do 3 (split; [ reflexivity | ]).
  refine (proj1 (proj2 (crew_patch_status_only Sample.db 1 Sample.carol
                          [("status", VInt 1); ("total", VInt 0)] []
                          Sample.order1 _ _) _));
    reflexivity.
Defined.

(** ** Checkout *)

(** C1, what the code does instead: POST /orders of a user with a cart is
    refused as a validation failure (400), and nothing is written: no order
    item, no order, and the cart stays.  [OrderItemSerializer] is given the
    keys [user_id] and [menuitem_id], not the [order] and [menuitem] it
    requires.  Without a cart the answer is Not Found. *)
Theorem checkout_is_refused {F : Framework} (db : DB) (u : Z) (data : dict) (q : query) :
  (forall c,
     get_object_or_404 (carts db) (fun c => same_user (Some (cart_user c)) (Some u)) = Ok c ->
     serve api_order (mkRequest POST (Some u) data q) db = (Raise ValidationError, db)
     /\ http_status (fst (serve api_order (mkRequest POST (Some u) data q) db))
        = HTTP_400_BAD_REQUEST)
  /\ (filter (fun c => same_user (Some (cart_user c)) (Some u)) (carts db) = [] ->
      serve api_order (mkRequest POST (Some u) data q) db = (Raise Http404, db)
      /\ http_status (fst (serve api_order (mkRequest POST (Some u) data q) db))
         = HTTP_404_NOT_FOUND).
Proof.
  split.
  - intros c Hc.
    assert (Hrun : serve api_order (mkRequest POST (Some u) data q) db
                   = (Raise ValidationError, db)).
    { unfold serve, api_view, order. simpl in *.
      unfold bind, get_db, lift. simpl. rewrite Hc. reflexivity. }
    rewrite Hrun. now split.
  - intros Hnone.
    assert (Hrun : serve api_order (mkRequest POST (Some u) data q) db
                   = (Raise Http404, db)).
    { unfold serve, api_view, order. simpl in *.
      unfold bind, get_db, lift, get_object_or_404. simpl. rewrite Hnone. reflexivity. }
    rewrite Hrun. now split.
Qed.

(** Alice has a cart and checks out: 400, and the database is as it was.
    Dave has no cart: 404. *)
Lemma checkout_is_refused_witness :
  get_object_or_404 (carts Sample.db)
    (fun c => same_user (Some (cart_user c)) (Some Sample.alice)) = Ok Sample.alice_cart
  /\ serve api_order (mkRequest POST (Some Sample.alice) [] []) Sample.db
     = (Raise ValidationError, Sample.db)
  /\ serve api_order (mkRequest POST (Some Sample.dave) [] []) Sample.db
     = (Raise Http404, Sample.db).
Proof.
  split; [ reflexivity | split ].
  - refine (proj1 (proj1 (checkout_is_refused Sample.db Sample.alice [] [])
                     Sample.alice_cart _)).
    reflexivity.
  - refine (proj1 (proj2 (checkout_is_refused Sample.db Sample.dave [] []) _)).
    reflexivity.
Defined.

(** ** Deleting *)

(** C5, what the code does instead: the three DELETE branches that end in
    [Response(status.HTTP_204_NO_CONTENT)] delete the row and answer 200, with
    the number 204 as the body: a menu item deleted by a Manager, the
    requester's cart, an order deleted by a Manager. *)
Theorem delete_answers_ok_not_no_content {F : Framework} (db : DB) (u id : Z)
    (data : dict) (q : query) :
  (forall item,
     in_group db (Some u) "Manager" = true ->
     get_object_or_404 (menuitems_table db) (fun m => menuitem_id m =? id) = Ok item ->
     serve (api_menuitems_single id) (mkRequest DELETE (Some u) data q) db
       = (Ok (mkResponse (Code 204) 200), delete_menuitem (menuitem_id item) db))
  /\ (forall c,
        get_object_or_404 (carts db) (fun c => same_user (Some (cart_user c)) (Some u)) = Ok c ->
        serve api_cart (mkRequest DELETE (Some u) data q) db
          = (Ok (mkResponse (Code 204) 200), delete_cart (cart_id c) db))
  /\ (forall o,
        in_group db (Some u) "Manager" = true ->
        get_object_or_404 (orders db) (fun x => order_id x =? id) = Ok o ->
        serve (api_order_single id) (mkRequest DELETE (Some u) data q) db
          = (Ok (mkResponse (Code 204) 200), delete_order (order_id o) db)).
Proof.
  repeat split.
  - intros item Hmanager Hitem.
    unfold serve, api_view, menuitems_single, is_manager. simpl.
    unfold bind, get_db, lift. simpl. rewrite Hitem, Hmanager. reflexivity.
  - intros c Hc.
    unfold serve, api_view, cart. simpl in *.
    unfold bind, get_db, lift. simpl. rewrite Hc. reflexivity.
  - intros o Hmanager Ho.
    unfold serve, api_view, order_single, is_manager. simpl.
    unfold bind, get_db, lift. simpl. rewrite Ho, Hmanager. reflexivity.
Qed.

(** Bob, a Manager, deletes the soup, and the answer is sent with 200. *)
Lemma delete_answers_ok_not_no_content_witness :
  in_group Sample.db (Some Sample.bob) "Manager" = true
  /\ get_object_or_404 (menuitems_table Sample.db) (fun m => menuitem_id m =? 3)
     = Ok Sample.soup
  /\ http_status
       (fst (serve (api_menuitems_single 3) (mkRequest DELETE (Some Sample.bob) [] [])
               Sample.db))
     = HTTP_200_OK.
Proof.
  do 2 (split; [ reflexivity | ]).
  rewrite (proj1 (delete_answers_ok_not_no_content Sample.db Sample.bob 3 [] [])
             Sample.soup eq_refl eq_refl).
  reflexivity.
Defined.

(** ** Forbidden changes nothing *)

Lemma exn_is_not_forbidden (e : exn) : status_of_exn e <> HTTP_403_FORBIDDEN.
Proof. destruct e; discriminate. Qed.

Lemma never_forbidden_raise (e : exn) : never_forbidden (raise e).
Proof. intros db. apply exn_is_not_forbidden. Qed.

Lemma never_forbidden_ret (r : Response) :
  response_status r <> HTTP_403_FORBIDDEN -> never_forbidden (ret r).
Proof. intros H db. exact H. Qed.

Lemma never_forbidden_bind {A} (m : M A) (k : A -> M Response) :
  (forall a, never_forbidden (k a)) -> never_forbidden (bind m k).
Proof.
  intros Hk db. unfold bind.
  destruct (m db) as [[a | e] db']; [ apply Hk | apply exn_is_not_forbidden ].
Qed.

Lemma quiet_of_never (m : M Response) : never_forbidden m -> forbidden_is_quiet m.
Proof. intros H db Hdb. now apply H in Hdb. Qed.

Lemma quiet_of_reads (m : M Response) : reads m -> forbidden_is_quiet m.
Proof. intros H db _. apply H. Qed.

Lemma quiet_bind {A} (m : M A) (k : A -> M Response) :
  reads m -> (forall a, forbidden_is_quiet (k a)) -> forbidden_is_quiet (bind m k).
Proof.
  intros Hm Hk db. unfold bind. specialize (Hm db).
  destruct (m db) as [[a | e] db']; simpl in *; subst; [ apply Hk | trivial ].
Qed.

(** After a write, what is left of a view never answers Forbidden. *)
Ltac never_forbidden_all :=
  repeat first
    [ apply never_forbidden_raise
    | apply never_forbidden_ret; discriminate
    | apply never_forbidden_bind; intros ?
    | match goal with
      | |- never_forbidden (match ?x with _ => _ end) => destruct x
      | |- never_forbidden (if ?x then _ else _) => destruct x
      end ].

Ltac quiet_step reads_tac :=
  first
    [ apply quiet_of_reads; solve [ reads_tac ]
    | apply quiet_bind; [ solve [ reads_tac ] | intros ? ]
    | match goal with
      | |- forbidden_is_quiet (match ?x with _ => _ end) => destruct x
      | |- forbidden_is_quiet (if ?x then _ else _) => destruct x
      end
    | apply quiet_of_never; solve [ never_forbidden_all ] ].

(** The computations of the views that only read. *)
Ltac view_reads :=
  first
    [ apply reads_CategorySerializer_is_valid
    | apply reads_MenuItemSerializer_is_valid
    | apply reads_CartSerializer_is_valid
    | apply reads_OrderItemSerializer_is_valid
    | apply reads_OrderSerializer_is_valid
    | apply reads_RatingSerializer_is_valid
    | apply reads_menuitems_queryset
    | apply reads_orders_queryset
    | apply reads_Paginator
    | apply reads_page
    | apply reads_data_item
    | apply reads_cart_data
    | apply reads_Group_get
    | reads_step ];
  try view_reads.

Section Forbidden.
Context {F : Framework}.

Ltac quiet := repeat quiet_step view_reads.

Lemma quiet_category request : forbidden_is_quiet (category request).
Proof. unfold category. quiet. Qed.

Lemma quiet_category_single id request : forbidden_is_quiet (category_single id request).
Proof. unfold category_single. quiet. Qed.

Lemma quiet_menuitems request : forbidden_is_quiet (menuitems request).
Proof. unfold menuitems. quiet. Qed.

Lemma quiet_menuitems_single id request :
  forbidden_is_quiet (menuitems_single id request).
Proof. unfold menuitems_single. quiet. Qed.

Lemma quiet_group_set name words request : forbidden_is_quiet (group_set name words request).
Proof. unfold group_set. quiet. Qed.

Lemma quiet_group_delete name refusal id request :
  forbidden_is_quiet (group_delete name refusal id request).
Proof. unfold group_delete. quiet. Qed.

Lemma quiet_cart request : forbidden_is_quiet (cart request).
Proof. unfold cart. quiet. Qed.

Lemma quiet_order request : forbidden_is_quiet (order request).
Proof. unfold order, OrderSerializer_data_of_queryset. quiet. Qed.

Lemma quiet_order_single id request : forbidden_is_quiet (order_single id request).
Proof. unfold order_single. quiet. Qed.

Lemma quiet_RatingsView request : forbidden_is_quiet (RatingsView request).
Proof. unfold RatingsView. quiet. Qed.

Lemma quiet_api_view methods authenticated view request :
  forbidden_is_quiet (view request) ->
  forbidden_is_quiet (api_view methods authenticated view request).
Proof.
  intros H. unfold api_view.
  destruct authenticated, (request_user request),
    (existsb (method_eqb (request_method request)) methods);
    trivial; apply quiet_of_never, never_forbidden_raise.
Qed.

Lemma quiet_serve (e : endpoint) (request : Request) : forbidden_is_quiet (serve e request).
Proof.
  destruct e; cbv beta iota delta [serve];
    unfold manager_set, manager_delete, delivery_set, delivery_delete;
    try apply quiet_api_view;
    first [ apply quiet_category | apply quiet_category_single | apply quiet_menuitems
          | apply quiet_menuitems_single | apply quiet_group_set
          | apply quiet_group_delete | apply quiet_cart | apply quiet_order
          | apply quiet_order_single | apply quiet_RatingsView ].
Qed.

End Forbidden.

(** A request that the role rules deny is answered Forbidden, and nothing is
    written. *)
Lemma denied_is_forbidden {F : Framework} (e : endpoint) (request : Request) (db : DB)
    (u : Z) :
  request_user request = Some u ->
  denied_by_role db e request = true ->
  serve e request db = (Ok not_authorized, db).
Proof.
  destruct request as [method user data q]. simpl. intros -> Hdenied.
  unfold denied_by_role, is_manager, is_delivery_crew in Hdenied.
  cbn [request_method request_user] in Hdenied.
  destruct e, method; try discriminate Hdenied.
  all: cbv beta iota delta
         [serve api_view request_user request_method existsb method_eqb orb
          manager_set manager_delete delivery_set delivery_delete].
  all: unfold category, category_single, menuitems, menuitems_single, group_set,
         group_delete, order_single, is_manager, is_delivery_crew, bind, get_db, lift, ret.
  all: cbn [request_method request_user method_eqb andb orb negb].
  all: repeat match type of Hdenied with
              | context [get_object_or_404 ?rows ?p] =>
                  destruct (get_object_or_404 rows p); [ | discriminate Hdenied ]
              | context [in_group ?d ?x ?g] => destruct (in_group d x g)
              | context [same_user ?a ?b] => destruct (same_user a b)
              end.
  all: cbn [negb] in *; try discriminate Hdenied; reflexivity.
Qed.

(** C4: a request that a role check denies is answered Forbidden; whenever
    an endpoint answers Forbidden the database is as it was; and a POST to
    the categories by an authenticated user outside the Manager group answers
    Forbidden and creates no category. *)
Theorem forbidden_changes_nothing {F : Framework} :
  (forall (e : endpoint) (request : Request) (db : DB) (u : Z),
     request_user request = Some u ->
     denied_by_role db e request = true ->
     serve e request db = (Ok not_authorized, db))
  /\ (forall (e : endpoint) (request : Request) (db : DB),
        http_status (fst (serve e request db)) = HTTP_403_FORBIDDEN ->
        snd (serve e request db) = db)
  /\ (forall (db : DB) (u : Z) (data : dict) (q : query),
        in_group db (Some u) "Manager" = false ->
        serve api_category (mkRequest POST (Some u) data q) db = (Ok not_authorized, db)
        /\ categories (snd (serve api_category (mkRequest POST (Some u) data q) db))
           = categories db).
Proof.
  split; [ | split ].
  - apply @denied_is_forbidden.
  - intros e request db. apply quiet_serve.
  - intros db u data q Hmanager.
    assert (Hrun : serve api_category (mkRequest POST (Some u) data q) db
                   = (Ok not_authorized, db)).
    { apply denied_is_forbidden with (u := u); trivial.
      unfold denied_by_role, is_manager. simpl. now rewrite Hmanager. }
    rewrite Hrun. now split.
Qed.

(** Alice is a customer: her POST to the categories is refused, and so is
    her DELETE of order 1, which is her own. *)
Lemma forbidden_changes_nothing_witness :
  in_group Sample.db (Some Sample.alice) "Manager" = false
  /\ denied_by_role Sample.db (api_order_single 1)
       (mkRequest DELETE (Some Sample.alice) [] []) = true
  /\ serve api_category
       (mkRequest POST (Some Sample.alice) [("title", VStr "Desserts"); ("slug", VStr "desserts")] [])
       Sample.db
     = (Ok not_authorized, Sample.db)
  /\ serve (api_order_single 1) (mkRequest DELETE (Some Sample.alice) [] []) Sample.db
     = (Ok not_authorized, Sample.db).
Proof.
  do 2 (split; [ reflexivity | ]). split.
  - refine (proj1 (proj2 (proj2 forbidden_changes_nothing) Sample.db Sample.alice
                     [("title", VStr "Desserts"); ("slug", VStr "desserts")] [] _)).
    reflexivity.
  - refine (proj1 forbidden_changes_nothing (api_order_single 1)
              (mkRequest DELETE (Some Sample.alice) [] []) Sample.db Sample.alice _ _);
      reflexivity.
Defined.

(** ** What every endpoint keeps of the carts *)

Lemma filter_all {A} (l : list A) : filter (fun _ => true) l = l.
Proof. induction l as [| x l IH]; simpl; congruence. Qed.

Lemma filter_filter {A} (f g : A -> bool) (l : list A) :
  filter f (filter g l) = filter (fun x => g x && f x) l.
Proof.
  induction l as [| x l IH]; simpl; trivial.
  destruct (g x); simpl; [ destruct (f x) | ]; congruence.
Qed.

Lemma filter_none {A} (f : A -> bool) (l : list A) :
  existsb f l = false -> filter f l = [].
Proof.
  induction l as [| x l IH]; simpl; trivial.
  intros H. apply orb_false_iff in H as [-> H]. auto.
Qed.

Lemma filter_length_and {A} (f g : A -> bool) (l : list A) :
  (List.length (filter (fun x => g x && f x) l) <= List.length (filter f l))%nat.
Proof.
  induction l as [| x l IH]; simpl; trivial.
  destruct (g x), (f x); simpl; lia.
Qed.

Lemma carts_removed_refl (db db' : DB) : carts db' = carts db -> carts_removed db db'.
Proof. intros H. exists (fun _ => true). now rewrite filter_all. Qed.

Lemma carts_removed_trans (db1 db2 db3 : DB) :
  carts_removed db1 db2 -> carts_removed db2 db3 -> carts_removed db1 db3.
Proof.
  intros [f Hf] [g Hg]. exists (fun c => f c && g c).
  now rewrite Hg, Hf, filter_filter.
Qed.

Lemma carts_removed_delete_menuitem (k : Z) (db : DB) :
  carts_removed db (delete_menuitem k db).
Proof. now exists (fun c => negb (cart_menuitem c =? k)). Qed.

Lemma carts_removed_delete_cart (k : Z) (db : DB) : carts_removed db (delete_cart k db).
Proof. now exists (fun c => negb (cart_id c =? k)). Qed.

Lemma carts_removed_delete_category (k : Z) (db : DB) :
  carts_removed db (delete_category k db).
Proof.
  unfold delete_category.
  induction (map menuitem_id (filter (fun m => menuitem_category m =? k) (menuitems_table db)))
    as [| i l IH]; simpl.
  - now apply carts_removed_refl.
  - eapply carts_removed_trans; [ exact IH | apply carts_removed_delete_menuitem ].
Qed.

Lemma carts_removed_user_set_add (name : string) (uid : Z) (db : DB) :
  carts_removed db (user_set_add name uid db).
Proof. unfold user_set_add. destruct (in_group _ _ _); now apply carts_removed_refl. Qed.

Section Keeping.
Context {F : Framework}.
Variable P : DB -> Prop.
Hypothesis P_removed : forall db db', carts_removed db db' -> P db -> P db'.
Hypothesis P_created :
  forall context data db attrs,
    CartSerializer_is_valid context data db = (Ok attrs, db) ->
    P db -> P (snd (CartSerializer_save attrs db)).

Lemma keeps_of_reads {A} (m : M A) : reads m -> keeps P m.
Proof. intros H db HP. now rewrite H. Qed.

Lemma keeps_bind {A B} (m : M A) (k : A -> M B) :
  keeps P m -> (forall a, keeps P (k a)) -> keeps P (bind m k).
Proof.
  intros Hm Hk db HP. unfold bind. specialize (Hm db HP).
  destruct (m db) as [[a | e] db']; simpl in *; [ now apply Hk | trivial ].
Qed.

Lemma keeps_try_except {A} (m : M A) (e : exn -> bool) (h : M A) :
  keeps P m -> keeps P h -> keeps P (try_except m e h).
Proof.
  intros Hm Hh db HP. unfold try_except. specialize (Hm db HP).
  destruct (m db) as [[a | x] db']; simpl in *; trivial.
  destruct (e x); simpl; trivial. now apply Hh.
Qed.

Lemma keeps_modify (f : DB -> DB) :
  (forall db, carts_removed db (f db)) -> keeps P (modify f).
Proof. intros Hf db HP. simpl. now apply P_removed with (db := db). Qed.

Lemma keeps_cart_created {B} (context : option Z) (data : dict) (k : Cart -> M B) :
  (forall c, keeps P (k c)) ->
  keeps P (bind (CartSerializer_is_valid context data)
             (fun attrs => bind (CartSerializer_save attrs) k)).
Proof.
  intros Hk db HP. unfold bind at 1.
  pose proof (reads_CartSerializer_is_valid context data db) as Hreads.
  destruct (CartSerializer_is_valid context data db) as [[attrs | e] db'] eqn:E;
    simpl in Hreads; subst db'; trivial.
  pose proof (P_created context data db attrs E HP) as HP'.
  unfold bind. destruct (CartSerializer_save attrs db) as [[c | e] db'];
    simpl in *; [ now apply Hk | trivial ].
Qed.

Ltac removed :=
  first
    [ apply carts_removed_delete_menuitem
    | apply carts_removed_delete_cart
    | apply carts_removed_delete_category
    | apply carts_removed_user_set_add
    | apply carts_removed_refl; reflexivity ].

Ltac keeps_step :=
  first
    [ apply keeps_of_reads; solve [ view_reads ]
    | apply keeps_cart_created; intros ?
    | apply keeps_bind; [ | intros ? ]
    | apply keeps_try_except
    | apply keeps_modify; intros ?; solve [ removed ]
    | match goal with
      | |- keeps _ (match ?x with _ => _ end) => destruct x
      | |- keeps _ (if ?x then _ else _) => destruct x
      end ].

Ltac keeps_all := repeat keeps_step.

Lemma keeps_category request : keeps P (category request).
Proof. unfold category, CategorySerializer_save. keeps_all. Qed.

Lemma keeps_category_single id request : keeps P (category_single id request).
Proof. unfold category_single, CategorySerializer_save. keeps_all. Qed.

Lemma keeps_menuitems request : keeps P (menuitems request).
Proof. unfold menuitems, MenuItemSerializer_save. keeps_all. Qed.

Lemma keeps_menuitems_single id request : keeps P (menuitems_single id request).
Proof. unfold menuitems_single, MenuItemSerializer_save. keeps_all. Qed.

Lemma keeps_group_set name words request : keeps P (group_set name words request).
Proof. unfold group_set. keeps_all. Qed.

Lemma keeps_group_delete name refusal id request :
  keeps P (group_delete name refusal id request).
Proof. unfold group_delete. keeps_all. Qed.

Lemma keeps_cart request : keeps P (cart request).
Proof. unfold cart. keeps_all. Qed.

Lemma keeps_order request : keeps P (order request).
Proof.
  unfold order, OrderItemSerializer_save, OrderSerializer_save,
    OrderItem_get_user_menuitem, OrderSerializer_data_of_queryset.
  keeps_all.
Qed.

Lemma keeps_order_single id request : keeps P (order_single id request).
Proof. unfold order_single, OrderSerializer_save. keeps_all. Qed.

Lemma keeps_RatingsView request : keeps P (RatingsView request).
Proof. unfold RatingsView, RatingSerializer_save. keeps_all. Qed.

Lemma keeps_api_view methods authenticated view request :
  keeps P (view request) -> keeps P (api_view methods authenticated view request).
Proof.
  intros H. unfold api_view.
  destruct authenticated, (request_user request),
    (existsb (method_eqb (request_method request)) methods);
    trivial; apply keeps_of_reads, reads_raise.
Qed.

Lemma keeps_serve (e : endpoint) (request : Request) : keeps P (serve e request).
Proof.
  destruct e; cbv beta iota delta [serve];
    unfold manager_set, manager_delete, delivery_set, delivery_delete;
    try apply keeps_api_view;
    first [ apply keeps_category | apply keeps_category_single | apply keeps_menuitems
          | apply keeps_menuitems_single | apply keeps_group_set
          | apply keeps_group_delete | apply keeps_cart | apply keeps_order
          | apply keeps_order_single | apply keeps_RatingsView ].
Qed.

End Keeping.

(** ** price = quantity x unit_price *)

Lemma carts_priced_removed (db db' : DB) :
  carts_removed db db' -> carts_priced db -> carts_priced db'.
Proof.
  intros [keep Hkeep] H. unfold carts_priced in *. rewrite Hkeep.
  apply Forall_forall. intros c Hc. apply filter_In in Hc as [Hc _].
  now apply (proj1 (Forall_forall _ _) H).
Qed.

(** What [is_valid] hands on has the price that [validate] computed. *)
Lemma CartSerializer_is_valid_price {F : Framework} (context : option Z) (data : dict)
    (db db' : DB) (attrs : cart_attrs) :
  CartSerializer_is_valid context data db = (Ok attrs, db') ->
  attrs_price attrs = Some (inject_Z (attrs_quantity attrs) * attrs_unit_price attrs)%Q.
Proof.
  unfold CartSerializer_is_valid, bind, get_db. simpl.
  destruct (match dict_get "user" data with
            | Some v => ret (not_null (related (map user_id (users db))) v)
            | None => _
            end db) as [[user | e] db1]; [ | discriminate ].
  destruct user; [ | discriminate ].
  destruct (field false true _ (dict_get "menuitem" data) None); [ | discriminate ].
  destruct (field false true to_decimal (dict_get "unit_price" data) None);
    [ | discriminate ].
  destruct (field false true to_int (dict_get "quantity" data) None); [ | discriminate ].
  unfold ret. intros H. injection H as <- _. reflexivity.
Qed.

(** The row that [save] writes is the validated data. *)
Lemma CartSerializer_save_row (attrs : cart_attrs) (db db' : DB) (c : Cart) :
  CartSerializer_save attrs db = (Ok c, db') ->
  carts db' = carts db ++ [c]
  /\ cart_user c = attrs_user attrs
  /\ cart_menuitem c = attrs_menuitem attrs
  /\ cart_unit_price c = attrs_unit_price attrs
  /\ cart_quantity c = attrs_quantity attrs
  /\ attrs_price attrs = Some (cart_price c)
  /\ existsb (fun x => cart_user x =? attrs_user attrs) (carts db) = false.
Proof.
  unfold CartSerializer_save, bind, get_db, modify, ret, raise. simpl.
  destruct (attrs_price attrs) as [p |]; [ | discriminate ].
  destruct (existsb _ (carts db)); [ discriminate | ].
  intros H. injection H as <- <-. simpl. repeat split.
Qed.

Lemma CartSerializer_save_unchanged (attrs : cart_attrs) (db db' : DB) (e : exn) :
  CartSerializer_save attrs db = (Raise e, db') -> db' = db.
Proof.
  unfold CartSerializer_save, bind, get_db, modify, ret, raise. simpl.
  destruct (attrs_price attrs) as [p |]; [ | congruence ].
  destruct (existsb _ (carts db)); [ congruence | discriminate ].
Qed.

Lemma carts_priced_created {F : Framework} (context : option Z) (data : dict) (db : DB)
    (attrs : cart_attrs) :
  CartSerializer_is_valid context data db = (Ok attrs, db) ->
  carts_priced db -> carts_priced (snd (CartSerializer_save attrs db)).
Proof.
  intros Hvalid H. apply CartSerializer_is_valid_price in Hvalid.
  destruct (CartSerializer_save attrs db) as [[c | e] db'] eqn:E; simpl.
  - apply CartSerializer_save_row in E as (Hrows & _ & _ & Hup & Hq & Hp & _).
    unfold carts_priced. rewrite Hrows. apply Forall_app. split; trivial.
    constructor; [ | constructor ].
    unfold cart_priced. rewrite Hup, Hq. rewrite Hvalid in Hp. injection Hp as <-.
    reflexivity.
  - apply CartSerializer_save_unchanged in E. now subst.
Qed.

(** ** One cart for each user *)

Lemma one_cart_removed (db db' : DB) :
  carts_removed db db' -> one_cart_per_user db -> one_cart_per_user db'.
Proof.
  intros [keep Hkeep] H u. rewrite Hkeep, filter_filter.
  eapply Nat.le_trans; [ apply filter_length_and | apply H ].
Qed.

Lemma one_cart_created {F : Framework} (context : option Z) (data : dict) (db : DB)
    (attrs : cart_attrs) :
  CartSerializer_is_valid context data db = (Ok attrs, db) ->
  one_cart_per_user db -> one_cart_per_user (snd (CartSerializer_save attrs db)).
Proof.
  intros _ H.
  destruct (CartSerializer_save attrs db) as [[c | e] db'] eqn:E; simpl.
  - apply CartSerializer_save_row in E as (Hrows & Hu & _ & _ & _ & _ & Hnone).
    intros u. rewrite Hrows, filter_app, length_app. simpl.
    destruct (cart_user c =? u) eqn:Ec; simpl.
    + apply Z.eqb_eq in Ec. rewrite Hu in Ec. subst u.
      rewrite (filter_none _ _ Hnone). simpl. lia.
    + specialize (H u). lia.
  - apply CartSerializer_save_unchanged in E. now subst.
Qed.

Lemma cart_data_built {F : Framework} (request : Request) (db db' : DB) (data : dict) :
  cart_data request db = (Ok data, db') ->
  exists (menuitem quantity : value) (item : MenuItem) (q : Q),
    dict_get "menuitem" (request_data request) = Some menuitem
    /\ dict_get "quantity" (request_data request) = Some quantity
    /\ MenuItem_get db menuitem = Ok item
    /\ py_Decimal quantity = Some q
    /\ dict_get "unit_price" data = Some (VDecimal (menuitem_price item))
    /\ dict_get "price" data = Some (VDecimal (q * menuitem_price item)%Q).
Proof.
  unfold cart_data, data_item, bind, get_db, lift, ret, raise. simpl.
  destruct (dict_get "menuitem" (request_data request)) as [menuitem |]; [ | discriminate ].
  destruct (dict_get "quantity" (request_data request)) as [quantity |]; [ | discriminate ].
  destruct (MenuItem_get db menuitem) as [item | e] eqn:Hitem; [ | discriminate ].
  destruct (py_Decimal quantity) as [q |] eqn:Hq; [ | discriminate ].
  intros H. injection H as <- _.
  exists menuitem, quantity, item, q. repeat split; trivial.
Qed.

(** C7: every endpoint keeps price = quantity x unit_price in every row of
    the cart table; the data a cart is validated to carries that price, and
    the row saved from it satisfies the equation; and the data that POST
    /cart/menu-items hands to the serializer has the price of the menu item
    the request names as its unit price. *)
Theorem cart_price_is_quantity_times_unit_price {F : Framework} :
  (forall (e : endpoint) (request : Request) (db : DB),
     carts_priced db -> carts_priced (snd (serve e request db)))
  /\ (forall (context : option Z) (data : dict) (db db' : DB) (attrs : cart_attrs),
        CartSerializer_is_valid context data db = (Ok attrs, db') ->
        attrs_price attrs
        = Some (inject_Z (attrs_quantity attrs) * attrs_unit_price attrs)%Q)
  /\ (forall (context : option Z) (data : dict) (db db' : DB) (attrs : cart_attrs) (c : Cart),
        CartSerializer_is_valid context data db = (Ok attrs, db) ->
        CartSerializer_save attrs db = (Ok c, db') ->
        carts db' = carts db ++ [c]
        /\ cart_price c = (inject_Z (cart_quantity c) * cart_unit_price c)%Q
        /\ (carts_priced db -> carts_priced db'))
  /\ (forall (request : Request) (db db' : DB) (data : dict),
        cart_data request db = (Ok data, db') ->
        exists (menuitem quantity : value) (item : MenuItem) (q : Q),
          dict_get "menuitem" (request_data request) = Some menuitem
          /\ dict_get "quantity" (request_data request) = Some quantity
          /\ MenuItem_get db menuitem = Ok item
          /\ py_Decimal quantity = Some q
          /\ dict_get "unit_price" data = Some (VDecimal (menuitem_price item))
          /\ dict_get "price" data = Some (VDecimal (q * menuitem_price item)%Q)).
Proof.
  split; [ | split; [ | split ] ].
  - intros e request db. apply keeps_serve.
    + apply carts_priced_removed.
    + apply @carts_priced_created.
  - apply @CartSerializer_is_valid_price.
  - intros context data db db' attrs c Hvalid Hsave.
    pose proof (carts_priced_created context data db attrs Hvalid) as Hkeeps.
    rewrite Hsave in Hkeeps. simpl in Hkeeps.
    apply CartSerializer_is_valid_price in Hvalid.
    apply CartSerializer_save_row in Hsave as (Hrows & _ & _ & Hup & Hq & Hp & _).
    repeat split; trivial.
    rewrite Hup, Hq. rewrite Hvalid in Hp. now injection Hp as <-.
  - apply @cart_data_built.
Qed.

(** Alice's cart is priced, and stays so when Bob deletes the pasta; a cart
    validated and saved for Dave, two plates of pasta at 12.50, costs 25. *)
Lemma cart_price_is_quantity_times_unit_price_witness :
  carts_priced Sample.db
  /\ carts_priced
       (snd (serve (api_menuitems_single 1) (mkRequest DELETE (Some Sample.bob) [] [])
               Sample.db))
  /\ CartSerializer_is_valid (Some Sample.dave)
       [("menuitem", VInt 1); ("unit_price", VStr "12.50"); ("quantity", VInt 2)] Sample.db
     = (Ok (mkCartAttrs Sample.dave 1 (1250 # 100) 2 (Some (2500 # 100))), Sample.db)
  /\ attrs_price (mkCartAttrs Sample.dave 1 (1250 # 100) 2 (Some (2500 # 100)))
     = Some (inject_Z 2 * (1250 # 100))%Q.
Proof.
  assert (Hdb : carts_priced Sample.db).
  { constructor; [ reflexivity | constructor ]. }
  split; [ exact Hdb | split; [ | split; [ reflexivity | ] ] ].
  - exact (proj1 cart_price_is_quantity_times_unit_price (api_menuitems_single 1)
             (mkRequest DELETE (Some Sample.bob) [] []) Sample.db Hdb).
  - refine (proj1 (proj2 cart_price_is_quantity_times_unit_price) (Some Sample.dave)
              [("menuitem", VInt 1); ("unit_price", VStr "12.50"); ("quantity", VInt 2)]
              Sample.db Sample.db _ _).
    reflexivity.
Defined.

(** C8: a POST to the cart by a user who has a cart answers Bad Request and
    writes nothing, and no endpoint gives a user a second cart. *)
Theorem second_cart_is_refused {F : Framework} :
  (forall (db : DB) (u : Z) (data : dict) (q : query) (c : Cart),
     In c (carts db) -> cart_user c = u ->
     serve api_cart (mkRequest POST (Some u) data q) db
       = (Ok (Response2 (Message "The user has already a cart.") HTTP_400_BAD_REQUEST), db))
  /\ (forall (e : endpoint) (request : Request) (db : DB),
        one_cart_per_user db -> one_cart_per_user (snd (serve e request db))).
Proof.
  split.
  - intros db u data q c Hc Hu.
    unfold serve, api_view, cart, carts_of. simpl.
    unfold bind, get_db. simpl.
    assert (Hin : In c (filter (fun c => cart_user c =? u) (carts db))).
    { apply filter_In. split; trivial. now apply Z.eqb_eq. }
    destruct (filter (fun c => cart_user c =? u) (carts db)); [ destruct Hin | reflexivity ].
  - intros e request db. apply keeps_serve.
    + apply one_cart_removed.
    + apply @one_cart_created.
Qed.

(** Alice has a cart and asks for another. *)
Lemma second_cart_is_refused_witness :
  In Sample.alice_cart (carts Sample.db)
  /\ cart_user Sample.alice_cart = Sample.alice
  /\ serve api_cart
       (mkRequest POST (Some Sample.alice) [("menuitem", VInt 2); ("quantity", VInt 1)] [])
       Sample.db
     = (Ok (Response2 (Message "The user has already a cart.") HTTP_400_BAD_REQUEST),
        Sample.db).
Proof.
  split; [ now left | split; [ reflexivity | ] ].
  refine (proj1 second_cart_is_refused Sample.db Sample.alice
            [("menuitem", VInt 2); ("quantity", VInt 1)] [] Sample.alice_cart _ _);
    [ now left | reflexivity ].
Defined.

(** ** Ratings *)

(** The validation of a rating posted by [u], field by field. *)
Lemma RatingSerializer_is_valid_run {F : Framework} (db : DB) (u : Z) (data : dict) :
  RatingSerializer_is_valid (Some u) data db
  = (match rating_user_of db u data,
           field false true to_int (dict_get "menuitem_id" data) None,
           field false true (to_int_between 0 5) (dict_get "rating" data) None with
     | Some uu, Some m, Some r =>
         if rated db uu m then Raise ValidationError else Ok (uu, m, r)
     | _, _, _ => Raise ValidationError
     end, db).
Proof.
  unfold RatingSerializer_is_valid, rating_user_of, rated, bind, get_db. simpl.
  destruct (dict_get "user" data) as [v |]; simpl;
    [ destruct (not_null (related (map user_id (users db))) v) as [uu |] | ];
    repeat match goal with
           | |- context [match ?x with _ => _ end] => destruct x; simpl
           end; reflexivity.
Qed.

Lemma RatingsView_post {F : Framework} (db : DB) (u : Z) (data : dict) (q : query) :
  serve api_ratings (mkRequest POST (Some u) data q) db
  = match fst (RatingSerializer_is_valid (Some u) data db) with
    | Ok (uu, m, r) =>
        (Ok (Response2 (RatingData (mkRating (next_id (map rating_id (ratings db))) uu m r))
               HTTP_201_CREATED),
         set_ratings (ratings db ++ [mkRating (next_id (map rating_id (ratings db))) uu m r])
           db)
    | Raise e => (Raise e, db)
    end.
Proof.
  unfold serve, RatingsView. simpl. unfold bind at 1. simpl.
  unfold bind at 1. rewrite RatingSerializer_is_valid_run. simpl.
  destruct (rating_user_of db u data) as [uu |]; trivial.
  destruct (field false true to_int (dict_get "menuitem_id" data) None) as [m |]; trivial.
  destruct (field false true (to_int_between 0 5) (dict_get "rating" data) None) as [r |];
    trivial.
  destruct (rated db uu m); reflexivity.
Qed.

(** C9, as the code has it: a POST to the ratings by an authenticated user is
    refused as a validation failure, with nothing written, when the rating
    submitted is an integer below 0 or above 5, and when a rating of the same
    user for the same menu item is in the table; otherwise it is accepted,
    201 with the rating added, provided the body names its menu item and its
    rating by integers and its user, if it names one, exists. *)
Theorem rating_is_validated {F : Framework} (db : DB) (u : Z) (data : dict) (q : query) :
  (forall (v : value) (r : Z),
     dict_get "rating" data = Some v -> to_int v = Some r -> r < 0 \/ 5 < r ->
     serve api_ratings (mkRequest POST (Some u) data q) db = (Raise ValidationError, db))
  /\ (forall (uu m : Z) (vm : value),
        rating_user_of db u data = Some uu ->
        dict_get "menuitem_id" data = Some vm -> not_null to_int vm = Some m ->
        rated db uu m = true ->
        serve api_ratings (mkRequest POST (Some u) data q) db = (Raise ValidationError, db))
  /\ (forall (uu m r : Z) (vm vr : value),
        rating_user_of db u data = Some uu ->
        dict_get "menuitem_id" data = Some vm -> not_null to_int vm = Some m ->
        dict_get "rating" data = Some vr -> not_null to_int vr = Some r ->
        0 <= r <= 5 ->
        rated db uu m = false ->
        serve api_ratings (mkRequest POST (Some u) data q) db
          = (Ok (Response2
                   (RatingData (mkRating (next_id (map rating_id (ratings db))) uu m r))
                   HTTP_201_CREATED),
             set_ratings
               (ratings db ++ [mkRating (next_id (map rating_id (ratings db))) uu m r]) db)).
Proof.
  split; [ | split ].
  - intros v r Hv Hr Hout.
    rewrite RatingsView_post, RatingSerializer_is_valid_run. rewrite Hv. simpl.
    assert (Hnone : not_null (to_int_between 0 5) v = None).
    { unfold not_null, to_int_between. destruct v; trivial; rewrite Hr;
        replace ((0 <=? r) && (r <=? 5)) with false; trivial;
        symmetry; apply andb_false_iff; destruct Hout;
        [ left; apply Z.leb_gt | right; apply Z.leb_gt | left; apply Z.leb_gt
        | right; apply Z.leb_gt | left; apply Z.leb_gt | right; apply Z.leb_gt
        | left; apply Z.leb_gt | right; apply Z.leb_gt ]; lia. }
    rewrite Hnone.
    destruct (rating_user_of db u data); trivial.
    destruct (field false true to_int (dict_get "menuitem_id" data) None); trivial.
  - intros uu m vm Hu Hvm Hm Hrated.
    rewrite RatingsView_post, RatingSerializer_is_valid_run. rewrite Hu, Hvm. simpl.
    rewrite Hm.
    destruct (field false true (to_int_between 0 5) (dict_get "rating" data) None); trivial.
    now rewrite Hrated.
  - intros uu m r vm vr Hu Hvm Hm Hvr Hr Hin Hrated.
    rewrite RatingsView_post, RatingSerializer_is_valid_run. rewrite Hu, Hvm, Hvr. simpl.
    rewrite Hm.
    assert (Hsome : not_null (to_int_between 0 5) vr = Some r).
    { unfold not_null, to_int_between in *. destruct vr; try discriminate; rewrite Hr;
        replace ((0 <=? r) && (r <=? 5)) with true; trivial;
        symmetry; apply andb_true_iff; split; apply Z.leb_le; lia. }
    rewrite Hsome, Hrated. reflexivity.
Qed.

(** Dave rates the pasta 5 and is accepted; he is refused with a 6; Alice
    has rated the pasta and is refused. *)
Lemma rating_is_validated_witness :
  rated Sample.db Sample.alice 1 = true
  /\ rated Sample.db Sample.dave 1 = false
  /\ serve api_ratings
       (mkRequest POST (Some Sample.dave) [("menuitem_id", VInt 1); ("rating", VInt 6)] [])
       Sample.db
     = (Raise ValidationError, Sample.db)
  /\ serve api_ratings
       (mkRequest POST (Some Sample.alice) [("menuitem_id", VInt 1); ("rating", VInt 3)] [])
       Sample.db
     = (Raise ValidationError, Sample.db)
  /\ serve api_ratings
       (mkRequest POST (Some Sample.dave) [("menuitem_id", VInt 1); ("rating", VInt 5)] [])
       Sample.db
     = (Ok (Response2 (RatingData (mkRating 2 Sample.dave 1 5)) HTTP_201_CREATED),
        set_ratings [mkRating 1 Sample.alice 1 4; mkRating 2 Sample.dave 1 5] Sample.db).
Proof.
  do 2 (split; [ reflexivity | ]). split; [ | split ].
  - refine (proj1 (rating_is_validated Sample.db Sample.dave
                     [("menuitem_id", VInt 1); ("rating", VInt 6)] []) (VInt 6) 6 _ _ _);
      [ reflexivity | reflexivity | right; lia ].
  - refine (proj1 (proj2 (rating_is_validated Sample.db Sample.alice
                            [("menuitem_id", VInt 1); ("rating", VInt 3)] []))
              Sample.alice 1 (VInt 1) _ _ _ _); reflexivity.
  - refine (proj2 (proj2 (rating_is_validated Sample.db Sample.dave
                            [("menuitem_id", VInt 1); ("rating", VInt 5)] []))
              Sample.dave 1 5 (VInt 1) (VInt 5) _ _ _ _ _ _ _); try reflexivity.
    lia.
Defined.

(** C9 as stated fails: a rating within the range, of a user with no rating
    in the table, is not always accepted.  Dave has rated nothing and submits
    the rating 3 without a [menuitem_id]; the required field is missing and
    the request is refused. *)
Lemma rating_without_menuitem_is_refused :
  existsb (fun x => rating_user x =? Sample.dave) (ratings Sample.db) = false
  /\ to_int_between 0 5 (VInt 3) = Some 3
  /\ serve api_ratings (mkRequest POST (Some Sample.dave) [("rating", VInt 3)] [])
       Sample.db
     = (Raise ValidationError, Sample.db).
Proof. repeat split. Qed.

(** * Further properties of the views *)

(** ** Requests without a user *)

Lemma reads_apply {A} (m : M A) (db : DB) : reads m -> snd (m db) = db.
Proof. intros H. apply H. Qed.

(** X1: a request without an authenticated user changes nothing, whatever
    the endpoint and the method; every endpoint but the menu-item views and
    the ratings view refuses it as not authenticated before the view runs
    (those three carry no [IsAuthenticated] permission). *)
Theorem anonymous_never_writes {F : Framework} (e : endpoint) (request : Request) (db : DB) :
  request_user request = None ->
  snd (serve e request db) = db
  /\ match e with
     | api_menuitems | api_menuitems_single _ | api_ratings => True
     | _ => serve e request db = (Raise NotAuthenticated, db)
     end.
Proof.
  destruct request as [method user data q]. simpl. intros ->.
  destruct e; try (split; reflexivity); (split; [ | exact I ]).
  - cbv beta iota delta [serve api_view request_user]. 
    destruct (existsb _ _); [ | reflexivity ].
    unfold menuitems, is_manager. cbn [request_method request_user].
    unfold bind at 1. cbn [get_db].
    destruct method; cbn [method_eqb andb]; unfold in_group; try reflexivity.
    apply reads_apply. view_reads.
  - cbv beta iota delta [serve api_view request_user]. 
    destruct (existsb _ _); [ | reflexivity ].
    unfold menuitems_single, is_manager. cbn [request_method request_user].
    unfold bind at 1. cbn [get_db]. unfold bind at 1, lift.
    destruct (get_object_or_404 _ _); [ | reflexivity ].
    destruct method; cbn [method_eqb orb negb]; unfold in_group; reflexivity.
  - cbv beta iota delta [serve]. unfold RatingsView. cbn [request_method request_user].
    destruct method; reflexivity.
Qed.

Lemma anonymous_never_writes_witness :
  request_user (mkRequest POST None [("title", VStr "Tea")] []) = None
  /\ snd (serve api_menuitems (mkRequest POST None [("title", VStr "Tea")] []) Sample.db)
     = Sample.db
  /\ serve api_cart (mkRequest DELETE None [] []) Sample.db
     = (Raise NotAuthenticated, Sample.db).
Proof.
  split; [ reflexivity | split ].
  - exact (proj1 (anonymous_never_writes api_menuitems
                    (mkRequest POST None [("title", VStr "Tea")] []) Sample.db eq_refl)).
  - exact (proj2 (anonymous_never_writes api_cart (mkRequest DELETE None [] [])
                    Sample.db eq_refl)).
Defined.

(** ** Adding to the cart *)

Lemma cart_data_has_no_user {F : Framework} (request : Request) (db db' : DB) (data : dict) :
  cart_data request db = (Ok data, db') -> dict_get "user" data = None.
Proof.
  unfold cart_data, data_item, bind, get_db, lift, ret, raise. simpl.
  destruct (dict_get "menuitem" (request_data request)); [ | discriminate ].
  destruct (dict_get "quantity" (request_data request)); [ | discriminate ].
  destruct (MenuItem_get db v); [ | discriminate ].
  destruct (py_Decimal v0); [ | discriminate ].
  intros H. injection H as <- _. reflexivity.
Qed.

Lemma CartSerializer_without_context {F : Framework} (data : dict) (db : DB) :
  dict_get "user" data = None ->
  CartSerializer_is_valid None data db = (Raise KeyError, db).
Proof.
  intros H. unfold CartSerializer_is_valid, bind, get_db. simpl. rewrite H. reflexivity.
Qed.

Lemma cart_post_run {F : Framework} (db : DB) (u : Z) (data : dict) (q : query) :
  serve api_cart (mkRequest POST (Some u) data q) db
  = if queryset_exists (carts_of db (mkRequest POST (Some u) data q))
    then (Ok (Response2 (Message "The user has already a cart.") HTTP_400_BAD_REQUEST), db)
    else match fst (cart_data (mkRequest POST (Some u) data q) db) with
         | Ok _ => (Raise KeyError, db)
         | Raise e => (Raise e, db)
         end.
Proof.
  cbv beta iota delta [serve api_view request_user request_method existsb method_eqb orb].
  unfold cart. cbn [request_method]. unfold bind at 1. cbn [get_db].
  destruct (queryset_exists _); [ reflexivity | ].
  unfold bind at 1.
  pose proof (reads_cart_data (mkRequest POST (Some u) data q) db) as Hreads.
  destruct (cart_data (mkRequest POST (Some u) data q) db) as [[d | e] db'] eqn:E;
    simpl in Hreads; subst db'; [ | reflexivity ].
  apply cart_data_has_no_user in E.
  unfold bind at 1. rewrite (CartSerializer_without_context _ _ E). reflexivity.
Qed.

Lemma cart_post_reads {F : Framework} (db : DB) (u : Z) (data : dict) (q : query) :
  snd (serve api_cart (mkRequest POST (Some u) data q) db) = db.
Proof.
  rewrite cart_post_run. destruct (queryset_exists _); trivial.
  now destruct (fst (cart_data _ _)).
Qed.

(** X2: POST /cart/menu-items never creates a cart.  The view builds
    [CartSerializer(data=data)] without the request in its context and puts
    the user under the key [user_id], so the serializer's [user] field falls
    to [CurrentUserDefault], which has no request to read: the database is
    left as it was and the answer is never 201; for a user without a cart and
    a body with a menu item that exists and a quantity, the view raises
    [KeyError]. *)
Theorem cart_post_never_creates {F : Framework} (db : DB) (u : Z) (data : dict) (q : query) :
  snd (serve api_cart (mkRequest POST (Some u) data q) db) = db
  /\ http_status (fst (serve api_cart (mkRequest POST (Some u) data q) db))
     <> HTTP_201_CREATED
  /\ (forall (menuitem quantity : value) (item : MenuItem) (amount : Q),
        carts_of db (mkRequest POST (Some u) data q) = [] ->
        dict_get "menuitem" data = Some menuitem ->
        dict_get "quantity" data = Some quantity ->
        MenuItem_get db menuitem = Ok item ->
        py_Decimal quantity = Some amount ->
        serve api_cart (mkRequest POST (Some u) data q) db = (Raise KeyError, db)).
Proof.
  split; [ apply cart_post_reads | ]. rewrite cart_post_run. split.
  - destruct (queryset_exists _); [ discriminate | ].
    destruct (fst (cart_data _ _)) as [d | e]; [ discriminate | ].
    destruct e; discriminate.
  - intros menuitem quantity item amount Hnone Hm Hq Hitem Hamount.
    rewrite Hnone. simpl.
    unfold cart_data, data_item, bind, get_db, lift, ret. simpl.
    rewrite Hm, Hq, Hitem, Hamount. reflexivity.
Qed.

Lemma cart_post_never_creates_witness :
  carts_of Sample.db
    (mkRequest POST (Some Sample.dave) [("menuitem", VInt 1); ("quantity", VInt 2)] []) = []
  /\ MenuItem_get Sample.db (VInt 1) = Ok Sample.pasta
  /\ serve api_cart
       (mkRequest POST (Some Sample.dave) [("menuitem", VInt 1); ("quantity", VInt 2)] [])
       Sample.db
     = (Raise KeyError, Sample.db).
Proof.
  do 2 (split; [ reflexivity | ]).
  refine (proj2 (proj2 (cart_post_never_creates Sample.db Sample.dave
                          [("menuitem", VInt 1); ("quantity", VInt 2)] []))
            (VInt 1) (VInt 2) Sample.pasta (2 # 1) _ _ _ _ _); reflexivity.
Defined.

(** ** The order list of a customer *)

(** X3: GET /orders by a user who is neither Manager nor Delivery crew
    never lists their orders.  With an order of theirs the view hands the
    query set to [OrderSerializer] without [many=True], which raises
    [AttributeError] when the data is read; without one it answers
    [Response(status.HTTP_404_NOT_FOUND)], status 200 with the number 404 as
    the body.  The database is left as it was. *)
Theorem customer_order_list {F : Framework} (db : DB) (u : Z) (data : dict) (q : query) :
  in_group db (Some u) "Manager" = false ->
  in_group db (Some u) "Delivery crew" = false ->
  serve api_order (mkRequest GET (Some u) data q) db
  = (if queryset_exists (filter (fun o => order_user o =? u) (orders db))
     then Raise AttributeError
     else Ok (mkResponse (Code 404) 200), db).
Proof.
  intros Hmanager Hcrew.
  cbv beta iota delta [serve api_view request_user request_method existsb method_eqb orb].
  unfold order, is_manager, is_delivery_crew. cbn [request_method request_user].
  unfold bind at 1. cbn [get_db]. rewrite Hmanager, Hcrew. simpl.
  destruct (queryset_exists _); reflexivity.
Qed.

Lemma customer_order_list_witness :
  in_group Sample.db (Some Sample.alice) "Manager" = false
  /\ in_group Sample.db (Some Sample.alice) "Delivery crew" = false
  /\ serve api_order (mkRequest GET (Some Sample.alice) [] []) Sample.db
     = (Raise AttributeError, Sample.db)
  /\ serve api_order (mkRequest GET (Some 9) [] []) Sample.db
     = (Ok (mkResponse (Code 404) 200), Sample.db).
Proof.
  do 2 (split; [ reflexivity | ]). split.
  - exact (customer_order_list Sample.db Sample.alice [] [] eq_refl eq_refl).
  - exact (customer_order_list Sample.db 9 [] [] eq_refl eq_refl).
Defined.

(** ** Rows that are looked up, created, changed and deleted *)

(** X4: the single-row views look the row up before they look at the method
    or the role: when no row has the key, [category_single] answers Not Found
    to every method of an authenticated user, and [menuitems_single] and
    [order_single] to every method they allow, also to one the requester
    would otherwise be forbidden; nothing is changed. *)
Theorem missing_row_is_not_found_first {F : Framework} (db : DB) (id : Z)
    (request : Request) :
  (forall u, request_user request = Some u ->
     filter (fun c => category_id c =? id) (categories db) = [] ->
     serve (api_category_single id) request db = (Raise Http404, db))
  /\ (request_method request <> POST ->
      filter (fun m => menuitem_id m =? id) (menuitems_table db) = [] ->
      serve (api_menuitems_single id) request db = (Raise Http404, db))
  /\ (forall u, request_user request = Some u ->
        request_method request <> POST ->
        filter (fun o => order_id o =? id) (orders db) = [] ->
        serve (api_order_single id) request db = (Raise Http404, db)).
Proof.
  destruct request as [method user data q]. simpl. repeat split.
  - intros u -> Hnone.
    destruct method;
      cbv beta iota delta
        [serve api_view request_user request_method existsb method_eqb orb];
      unfold category_single; unfold bind at 1; cbn [get_db];
      unfold bind at 1, lift, get_object_or_404; now rewrite Hnone.
  - intros Hmethod Hnone.
    destruct method; try congruence; destruct user;
      cbv beta iota delta
        [serve api_view request_user request_method existsb method_eqb orb];
      unfold menuitems_single; unfold bind at 1; cbn [get_db];
      unfold bind at 1, lift, get_object_or_404; now rewrite Hnone.
  - intros u -> Hmethod Hnone.
    destruct method; try congruence;
      cbv beta iota delta
        [serve api_view request_user request_method existsb method_eqb orb];
      unfold order_single; unfold bind at 1; cbn [get_db];
      unfold bind at 1, lift, get_object_or_404; now rewrite Hnone.
Qed.

Lemma missing_row_is_not_found_first_witness :
  in_group Sample.db (Some Sample.alice) "Manager" = false
  /\ filter (fun o => order_id o =? 7) (orders Sample.db) = []
  /\ serve (api_order_single 7) (mkRequest DELETE (Some Sample.alice) [] []) Sample.db
     = (Raise Http404, Sample.db).
Proof.
  do 2 (split; [ reflexivity | ]).
  refine (proj2 (proj2 (missing_row_is_not_found_first Sample.db 7
                          (mkRequest DELETE (Some Sample.alice) [] [])))
            Sample.alice _ _ _); [ reflexivity | discriminate | reflexivity ].
Defined.

Lemma next_id_above (ids : list Z) (k : Z) : In k ids -> k < next_id ids.
Proof.
  unfold next_id. induction ids as [| i ids IH]; cbn [fold_right In]; [ intros [] | ].
  intros [-> | H]; [ lia | specialize (IH H); lia ].
Qed.

Lemma filter_new_key {A} (key : A -> Z) (rows : list A) (x : A) :
  key x = next_id (map key rows) ->
  filter (fun r => key r =? key x) (rows ++ [x]) = [x].
Proof.
  intros Hx. rewrite filter_app. simpl. rewrite Z.eqb_refl.
  replace (filter (fun r => key r =? key x) rows) with (@nil A); trivial.
  symmetry. apply filter_none. apply not_true_is_false. intros H.
  apply existsb_exists in H as (r & Hr & E). apply Z.eqb_eq in E.
  pose proof (next_id_above (map key rows) (key r) (in_map key rows r Hr)). lia.
Qed.


Lemma replace_row_same {A} (key : A -> Z) (k : Z) (rows : list A) (x : A) :
  get_object_or_404 rows (fun r => key r =? k) = Ok x ->
  replace_row key x rows = rows.
Proof.
  intros Hx. unfold replace_row. rewrite <- (map_id rows) at 2.
  apply map_ext_in. intros r Hr.
  destruct (get_object_or_404_holds _ _ _ Hx) as [_ Hk]. apply Z.eqb_eq in Hk.
  destruct (key r =? key x) eqn:E; trivial.
  rewrite Hk in E. symmetry. exact (get_object_or_404_only _ _ _ r Hx Hr E).
Qed.

Lemma replace_row_keys {A} (key : A -> Z) (x : A) (rows : list A) :
  map key (replace_row key x rows) = map key rows.
Proof.
  unfold replace_row. rewrite map_map. apply map_ext. intros r.
  destruct (key r =? key x) eqn:E; trivial. apply Z.eqb_eq in E. congruence.
Qed.


(** X5: what a Manager creates can be read back.  POST /category with a
    title and a slug answers 201 with the new row, whose key is one past the
    largest, and adds it to the table; GET /category/{key} by any user then
    answers 200 with that row.  The same holds of POST /menu-items with
    title, price, an existing category and featured, and GET
    /menu-items/{key}, which needs no user. *)
Theorem created_row_is_found {F : Framework} (db : DB) (u u' : Z) (data : dict)
    (q : query) :
  in_group db (Some u) "Manager" = true ->
  (forall (vt vs : value) (t s : string) (c : Category),
     dict_get "title" data = Some vt -> not_null to_text vt = Some t ->
     dict_get "slug" data = Some vs -> not_null to_text vs = Some s ->
     c = mkCategory (next_id (map category_id (categories db))) t s ->
     serve api_category (mkRequest POST (Some u) data q) db
       = (Ok (Response2 (CategoryData c) HTTP_201_CREATED),
          set_categories (categories db ++ [c]) db)
     /\ serve (api_category_single (category_id c)) (mkRequest GET (Some u') [] [])
          (set_categories (categories db ++ [c]) db)
        = (Ok (Response2 (CategoryData c) HTTP_200_OK),
           set_categories (categories db ++ [c]) db))
  /\ (forall (vt vp vc vf : value) (t : string) (p : Q) (c : Z) (f : bool) (m : MenuItem),
        dict_get "title" data = Some vt -> not_null to_text vt = Some t ->
        dict_get "price" data = Some vp -> not_null to_decimal vp = Some p ->
        dict_get "category" data = Some vc ->
        not_null (related (map category_id (categories db))) vc = Some c ->
        dict_get "featured" data = Some vf -> not_null to_bool vf = Some f ->
        m = mkMenuItem (next_id (map menuitem_id (menuitems_table db))) t p c f ->
        serve api_menuitems (mkRequest POST (Some u) data q) db
          = (Ok (Response2 (MenuItemData m) HTTP_201_CREATED),
             set_menuitems (menuitems_table db ++ [m]) db)
        /\ serve (api_menuitems_single (menuitem_id m)) (mkRequest GET None [] [])
             (set_menuitems (menuitems_table db ++ [m]) db)
           = (Ok (Response2 (MenuItemData m) HTTP_200_OK),
              set_menuitems (menuitems_table db ++ [m]) db)).
Proof.
  intros Hmanager. split.
  - intros vt vs t s c Hvt Ht Hvs Hs ->. split.
    + cbv beta iota delta [serve api_view request_user request_method existsb method_eqb orb].
      unfold category, is_manager. cbn [request_method request_user request_data].
      unfold bind at 1. cbn [get_db andb method_eqb]. rewrite Hmanager.
      unfold CategorySerializer_is_valid, field. rewrite Hvt, Hvs, Ht, Hs.
      reflexivity.
    + cbv beta iota delta [serve api_view request_user request_method existsb method_eqb orb].
      unfold category_single. unfold bind at 1. cbn [get_db].
      unfold bind at 1, lift, get_object_or_404.
      cbn [categories set_categories category_id].
      pose proof (filter_new_key category_id (categories db)
                    (mkCategory (next_id (map category_id (categories db))) t s) eq_refl)
        as Hfound.
      cbn [category_id] in Hfound. rewrite Hfound. reflexivity.
  - intros vt vp vc vf t p c f m Hvt Ht Hvp Hp Hvc Hc Hvf Hf ->. split.
    + cbv beta iota delta [serve api_view request_user request_method existsb method_eqb orb].
      unfold menuitems, is_manager. cbn [request_method request_user request_data].
      unfold bind at 1. cbn [get_db andb method_eqb]. rewrite Hmanager.
      unfold MenuItemSerializer_is_valid, field. unfold bind at 1.
      unfold bind at 1. cbn [get_db]. rewrite Hvt, Hvp, Hvc, Hvf, Ht, Hp, Hc, Hf.
      reflexivity.
    + cbv beta iota delta [serve api_view request_user request_method existsb method_eqb orb].
      unfold menuitems_single. unfold bind at 1. cbn [get_db].
      unfold bind at 1, lift, get_object_or_404.
      cbn [menuitems_table set_menuitems menuitem_id].
      pose proof (filter_new_key menuitem_id (menuitems_table db)
                    (mkMenuItem (next_id (map menuitem_id (menuitems_table db))) t p c f)
                    eq_refl) as Hfound.
      cbn [menuitem_id] in Hfound. rewrite Hfound. reflexivity.
Qed.

Lemma created_row_is_found_witness :
  in_group Sample.db (Some Sample.bob) "Manager" = true
  /\ serve api_category
       (mkRequest POST (Some Sample.bob)
          [("title", VStr "Desserts"); ("slug", VStr "desserts")] [])
       Sample.db
     = (Ok (Response2 (CategoryData (mkCategory 2 "Desserts" "desserts")) HTTP_201_CREATED),
        set_categories [mkCategory 1 "Mains" "mains"; mkCategory 2 "Desserts" "desserts"]
          Sample.db)
  /\ serve (api_category_single 2) (mkRequest GET (Some Sample.alice) [] [])
       (set_categories [mkCategory 1 "Mains" "mains"; mkCategory 2 "Desserts" "desserts"]
          Sample.db)
     = (Ok (Response2 (CategoryData (mkCategory 2 "Desserts" "desserts")) HTTP_200_OK),
        set_categories [mkCategory 1 "Mains" "mains"; mkCategory 2 "Desserts" "desserts"]
          Sample.db).
Proof.
  split; [ reflexivity | ].
  refine (proj1 (created_row_is_found Sample.db Sample.bob Sample.alice
                   [("title", VStr "Desserts"); ("slug", VStr "desserts")] [] _)
            (VStr "Desserts") (VStr "desserts") "Desserts" "desserts"
            (mkCategory 2 "Desserts" "desserts") _ _ _ _ _); reflexivity.
Defined.



(** X7: a PATCH by a Manager whose body names none of the serializer's
    fields is accepted and changes nothing: a partial update keeps every
    field of the row, so the answer is 205 with the row as it was and the
    database is the same. *)
Theorem empty_patch_changes_nothing {F : Framework} (db : DB) (u id : Z) (data : dict)
    (q : query) :
  in_group db (Some u) "Manager" = true ->
  (forall c,
     get_object_or_404 (categories db) (fun x => category_id x =? id) = Ok c ->
     dict_get "title" data = None -> dict_get "slug" data = None ->
     serve (api_category_single id) (mkRequest PATCH (Some u) data q) db
       = (Ok (Response2 (CategoryData c) HTTP_205_RESET_CONTENT), db))
  /\ (forall m,
        get_object_or_404 (menuitems_table db) (fun x => menuitem_id x =? id) = Ok m ->
        dict_get "title" data = None -> dict_get "price" data = None ->
        dict_get "category" data = None -> dict_get "featured" data = None ->
        serve (api_menuitems_single id) (mkRequest PATCH (Some u) data q) db
          = (Ok (Response2 (MenuItemData m) HTTP_205_RESET_CONTENT), db)).
Proof.
  intros Hmanager. split.
  - intros c Hc Ht Hs.
    cbv beta iota delta [serve api_view request_user request_method existsb method_eqb orb].
    unfold category_single, is_manager. cbn [request_method request_user request_data].
    unfold bind at 1. cbn [get_db]. unfold bind at 1, lift. rewrite Hc, Hmanager.
    cbn [method_eqb negb].
    unfold CategorySerializer_is_valid, field. rewrite Ht, Hs. cbn [orb option_map].
    unfold bind, ret, CategorySerializer_save, bind, get_db, modify, ret. cbn [fst snd].
    replace (mkCategory (category_id c) (category_title c) (category_slug c)) with c
      by (now destruct c).
    rewrite (replace_row_same category_id id _ c Hc). now destruct db.
  - intros m Hm Ht Hp Hc Hf.
    cbv beta iota delta [serve api_view request_user request_method existsb method_eqb orb].
    unfold menuitems_single, is_manager. cbn [request_method request_user request_data].
    unfold bind at 1. cbn [get_db]. unfold bind at 1, lift. rewrite Hm, Hmanager.
    cbn [method_eqb negb orb].
    unfold MenuItemSerializer_is_valid, field. rewrite Ht, Hp, Hc, Hf. cbn [orb option_map].
    unfold bind, ret, MenuItemSerializer_save, bind, get_db, modify, ret. cbn [fst snd].
    replace (mkMenuItem (menuitem_id m) (menuitem_title m) (menuitem_price m)
               (menuitem_category m) (menuitem_featured m)) with m by (now destruct m).
    rewrite (replace_row_same menuitem_id id _ m Hm). now destruct db.
Qed.

Lemma empty_patch_changes_nothing_witness :
  in_group Sample.db (Some Sample.bob) "Manager" = true
  /\ get_object_or_404 (menuitems_table Sample.db) (fun x => menuitem_id x =? 2)
     = Ok Sample.salad
  /\ serve (api_menuitems_single 2)
       (mkRequest PATCH (Some Sample.bob) [("note", VStr "fresh")] []) Sample.db
     = (Ok (Response2 (MenuItemData Sample.salad) HTTP_205_RESET_CONTENT), Sample.db).
Proof.
  do 2 (split; [ reflexivity | ]).
  refine (proj2 (empty_patch_changes_nothing Sample.db Sample.bob 2
                   [("note", VStr "fresh")] [] _)
            Sample.salad _ _ _ _ _); reflexivity.
Defined.

(** ** The group rosters *)

Lemma in_group_user_set_add (name : string) (uid : Z) (db : DB) :
  in_group (user_set_add name uid db) (Some uid) name = true.
Proof.
  unfold user_set_add. destruct (in_group db (Some uid) name) eqn:E; trivial.
  unfold in_group. cbn [memberships set_memberships]. rewrite existsb_app. simpl.
  now rewrite Z.eqb_refl, String.eqb_refl, orb_true_r.
Qed.

Lemma user_set_add_twice (name : string) (uid : Z) (db : DB) :
  user_set_add name uid (user_set_add name uid db) = user_set_add name uid db.
Proof.
  unfold user_set_add at 1. now rewrite in_group_user_set_add.
Qed.

Lemma in_group_user_set_remove (name : string) (uid : Z) (db : DB) :
  in_group (user_set_remove name uid db) (Some uid) name = false.
Proof.
  unfold in_group, user_set_remove. cbn [memberships set_memberships].
  apply not_true_is_false. intros H.
  apply existsb_exists in H as (m & Hm & E).
  apply filter_In in Hm as [_ Hm]. rewrite E in Hm. discriminate.
Qed.

Lemma user_set_remove_others (name name' : string) (uid uid' : Z) (db : DB) :
  uid' <> uid \/ name' <> name ->
  in_group (user_set_remove name uid db) (Some uid') name' = in_group db (Some uid') name'.
Proof.
  intros Hother. unfold in_group, user_set_remove. cbn [memberships set_memberships].
  induction (memberships db) as [| m l IH]; simpl; trivial.
  destruct ((fst m =? uid) && String.eqb (snd m) name) eqn:E; simpl; rewrite IH; trivial.
  apply andb_true_iff in E as [E1 E2]. apply Z.eqb_eq in E1. apply String.eqb_eq in E2.
  replace ((fst m =? uid') && String.eqb (snd m) name') with false; trivial.
  symmetry. apply andb_false_iff.
  destruct Hother as [H | H]; [ left; apply Z.eqb_neq | right; apply String.eqb_neq ];
    congruence.
Qed.

Lemma group_set_post {F : Framework} (name words s : string) (db : DB) (u : Z)
    (data : dict) (q : query) (user : User) :
  in_group db (Some u) "Manager" = true ->
  dict_get "username" data = Some (VStr s) ->
  nonempty s = true ->
  get_object_or_404 (users db) (fun x => String.eqb (username x) (py_str (VStr s)))
    = Ok user ->
  filter (String.eqb name) (groups db) = [name] ->
  group_set name words (mkRequest POST (Some u) data q) db
  = (Ok (Response2 (Message ("User " ++ s ++ " " ++ words)) HTTP_201_CREATED),
     user_set_add name (user_id user) db).
Proof.
  intros Hmanager Hname Hs Huser Hgroup.
  unfold group_set, is_manager, data_item, Group_get, objects_get.
  cbn [request_method request_user request_data].
  unfold bind at 1. cbn [get_db]. rewrite Hmanager. cbn [negb].
  rewrite Hname. unfold bind at 1, ret at 1. cbn [truthy]. rewrite Hs.
  unfold bind at 1, lift. rewrite Huser.
  unfold bind at 1. unfold bind at 1. cbn [get_db]. unfold lift. rewrite Hgroup.
  reflexivity.
Qed.

Lemma group_set_get {F : Framework} (name words : string) (db : DB) (u : Z)
    (data : dict) (q : query) :
  in_group db (Some u) "Manager" = true ->
  filter (String.eqb name) (groups db) = [name] ->
  group_set name words (mkRequest GET (Some u) data q) db
  = (Ok (Response1 (UserList (users_in db name))), db).
Proof.
  intros Hmanager Hgroup.
  unfold group_set, is_manager, Group_get, objects_get.
  cbn [request_method request_user request_data].
  unfold bind at 1. cbn [get_db]. rewrite Hmanager. cbn [negb].
  unfold bind at 1. unfold bind at 1. cbn [get_db]. unfold lift. rewrite Hgroup.
  reflexivity.
Qed.

Lemma user_set_add_keeps (name : string) (uid : Z) (db : DB) :
  users (user_set_add name uid db) = users db
  /\ groups (user_set_add name uid db) = groups db
  /\ (forall u, in_group db (Some u) "Manager" = true ->
        in_group (user_set_add name uid db) (Some u) "Manager" = true).
Proof.
  unfold user_set_add. destruct (in_group db (Some uid) name); repeat split; trivial.
  intros u Hu. unfold in_group in *. cbn [memberships set_memberships].
  rewrite existsb_app, Hu. reflexivity.
Qed.

Lemma serve_group_set {F : Framework} (e : endpoint) (name words : string) :
  (e = api_manager_set /\ name = "Manager" /\ words = "is set as manager.")
  \/ (e = api_delivery_set /\ name = "Delivery crew" /\ words = "is set as delivery crew.") ->
  forall request db,
    serve e request db = api_view [GET; POST] true (group_set name words) request db.
Proof. intros [(-> & -> & ->) | (-> & -> & ->)]; reflexivity. Qed.

(** X8: POST to a roster endpoint by a Manager, with the username of a user
    that exists, answers 201, and the user is then a member of the group;
    adding is idempotent: the same request again answers 201 and leaves the
    rosters as they are, with no second membership. *)
Theorem roster_post_adds_member {F : Framework} (db : DB) (u : Z) (data : dict)
    (q : query) (s : string) (user : User) (e : endpoint) (name words : string) :
  (e = api_manager_set /\ name = "Manager" /\ words = "is set as manager.")
  \/ (e = api_delivery_set /\ name = "Delivery crew" /\ words = "is set as delivery crew.") ->
  in_group db (Some u) "Manager" = true ->
  dict_get "username" data = Some (VStr s) ->
  nonempty s = true ->
  get_object_or_404 (users db) (fun x => String.eqb (username x) (py_str (VStr s)))
    = Ok user ->
  filter (String.eqb name) (groups db) = [name] ->
  serve e (mkRequest POST (Some u) data q) db
    = (Ok (Response2 (Message ("User " ++ s ++ " " ++ words)) HTTP_201_CREATED),
       user_set_add name (user_id user) db)
  /\ in_group (user_set_add name (user_id user) db) (Some (user_id user)) name = true
  /\ serve e (mkRequest POST (Some u) data q) (user_set_add name (user_id user) db)
     = (Ok (Response2 (Message ("User " ++ s ++ " " ++ words)) HTTP_201_CREATED),
        user_set_add name (user_id user) db).
Proof.
  intros He Hmanager Hname Hs Huser Hgroup.
  destruct (user_set_add_keeps name (user_id user) db) as (Husers & Hgroups & Hstill).
  pose proof (serve_group_set e name words He) as Hserve.
  repeat split.
  - rewrite Hserve. now apply group_set_post.
  - apply in_group_user_set_add.
  - rewrite Hserve.
    cbv beta iota delta [api_view request_user request_method existsb method_eqb orb].
    rewrite (group_set_post name words s _ u data q user); auto;
      [ now rewrite user_set_add_twice | now rewrite Husers | now rewrite Hgroups ].
Qed.

Lemma roster_post_adds_member_witness :
  in_group Sample.db (Some Sample.bob) "Manager" = true
  /\ in_group Sample.db (Some Sample.dave) "Delivery crew" = false
  /\ serve api_delivery_set (mkRequest POST (Some Sample.bob) [("username", VStr "dave")] [])
       Sample.db
     = (Ok (Response2 (Message "User dave is set as delivery crew.") HTTP_201_CREATED),
        user_set_add "Delivery crew" Sample.dave Sample.db)
  /\ in_group (user_set_add "Delivery crew" Sample.dave Sample.db) (Some Sample.dave)
       "Delivery crew" = true.
Proof.
  do 2 (split; [ reflexivity | ]).
  pose proof (roster_post_adds_member Sample.db Sample.bob [("username", VStr "dave")] []
                "dave" (mkUser Sample.dave "dave" "dave@example.com") api_delivery_set
                "Delivery crew" "is set as delivery crew."
                (or_intror (conj eq_refl (conj eq_refl eq_refl)))
                eq_refl eq_refl eq_refl eq_refl eq_refl) as (Hpost & Hin & _).
  split; [ exact Hpost | exact Hin ].
Defined.

(** X9: the roster that GET answers with is the group's members, and it
    lists a user once a POST has added them. *)
Theorem roster_lists_added_member {F : Framework} (db : DB) (u : Z) (data : dict)
    (q : query) (s : string) (user : User) (e : endpoint) (name words : string) :
  (e = api_manager_set /\ name = "Manager" /\ words = "is set as manager.")
  \/ (e = api_delivery_set /\ name = "Delivery crew" /\ words = "is set as delivery crew.") ->
  in_group db (Some u) "Manager" = true ->
  dict_get "username" data = Some (VStr s) ->
  nonempty s = true ->
  get_object_or_404 (users db) (fun x => String.eqb (username x) (py_str (VStr s)))
    = Ok user ->
  filter (String.eqb name) (groups db) = [name] ->
  exists roster : list User,
    serve e (mkRequest GET (Some u) [] [])
      (snd (serve e (mkRequest POST (Some u) data q) db))
    = (Ok (Response1 (UserList roster)), snd (serve e (mkRequest POST (Some u) data q) db))
    /\ In user roster
    /\ (forall x, In x roster <->
          In x (users db)
          /\ in_group (snd (serve e (mkRequest POST (Some u) data q) db))
               (Some (user_id x)) name = true).
Proof.
  intros He Hmanager Hname Hs Huser Hgroup.
  destruct (user_set_add_keeps name (user_id user) db) as (Husers & Hgroups & Hstill).
  pose proof (serve_group_set e name words He) as Hserve.
  assert (Hrun : snd (serve e (mkRequest POST (Some u) data q) db)
                 = user_set_add name (user_id user) db).
  { rewrite Hserve.
    cbv beta iota delta [api_view request_user request_method existsb method_eqb orb].
    now rewrite (group_set_post name words s db u data q user). }
  rewrite Hrun. exists (users_in (user_set_add name (user_id user) db) name).
  split; [ | split ].
  - rewrite Hserve. apply group_set_get; auto. now rewrite Hgroups.
  - unfold users_in. apply filter_In. rewrite Husers. split.
    + now apply (get_object_or_404_holds _ _ _ Huser).
    + apply in_group_user_set_add.
  - intros x. unfold users_in. rewrite filter_In, Husers. reflexivity.
Qed.

Lemma roster_lists_added_member_witness :
  in_group Sample.db (Some Sample.bob) "Manager" = true
  /\ exists roster : list User,
       serve api_manager_set (mkRequest GET (Some Sample.bob) [] [])
         (snd (serve api_manager_set
                 (mkRequest POST (Some Sample.bob) [("username", VStr "alice")] [])
                 Sample.db))
       = (Ok (Response1 (UserList roster)),
          snd (serve api_manager_set
                 (mkRequest POST (Some Sample.bob) [("username", VStr "alice")] [])
                 Sample.db))
       /\ In (mkUser Sample.alice "alice" "alice@example.com") roster.
Proof.
  split; [ reflexivity | ].
  destruct (roster_lists_added_member Sample.db Sample.bob [("username", VStr "alice")] []
              "alice" (mkUser Sample.alice "alice" "alice@example.com") api_manager_set
              "Manager" "is set as manager."
              (or_introl (conj eq_refl (conj eq_refl eq_refl)))
              ltac:(reflexivity) ltac:(reflexivity) ltac:(reflexivity)
              ltac:(reflexivity) ltac:(reflexivity)) as (roster & Hget & Hin & _).
  exists roster. split; [ exact Hget | exact Hin ].
Defined.

(** X10: what a roster POST by a Manager refuses, each time with the
    database as it was: a body without [username] raises [KeyError]; a
    username that is empty or otherwise false is answered 400; a username
    that no user has is answered Not Found. *)
Theorem roster_post_refusals {F : Framework} (db : DB) (u : Z) (data : dict) (q : query)
    (e : endpoint) :
  e = api_manager_set \/ e = api_delivery_set ->
  in_group db (Some u) "Manager" = true ->
  (dict_get "username" data = None ->
   serve e (mkRequest POST (Some u) data q) db = (Raise KeyError, db))
  /\ (forall v,
        dict_get "username" data = Some v -> truthy v = false ->
        serve e (mkRequest POST (Some u) data q) db
          = (Ok (Response2 (Message "Username is incorrect or not existed.")
                   HTTP_400_BAD_REQUEST), db))
  /\ (forall v,
        dict_get "username" data = Some v -> truthy v = true ->
        filter (fun x => String.eqb (username x) (py_str v)) (users db) = [] ->
        serve e (mkRequest POST (Some u) data q) db = (Raise Http404, db)).
Proof.
  intros He Hmanager.
  assert (Hserve : exists name words,
             serve e (mkRequest POST (Some u) data q) db
             = group_set name words (mkRequest POST (Some u) data q) db).
  { destruct He as [-> | ->]; eexists; eexists; reflexivity. }
  destruct Hserve as (name & words & ->).
  assert (Hrun : group_set name words (mkRequest POST (Some u) data q) db
                 = match dict_get "username" data with
                   | None => (Raise KeyError, db)
                   | Some v =>
                       if truthy v
                       then
                         bind (lift (get_object_or_404 (users db)
                                       (fun x => String.eqb (username x) (py_str v))))
                           (fun user =>
                              bind (Group_get name)
                                (fun _ =>
                                   bind (modify (user_set_add name (user_id user)))
                                     (fun _ =>
                                        match v with
                                        | VStr s =>
                                            ret (Response2
                                                   (Message ("User " ++ s ++ " " ++ words))
                                                   HTTP_201_CREATED)
                                        | _ => raise TypeError
                                        end))) db
                       else
                         (Ok (Response2 (Message "Username is incorrect or not existed.")
                                HTTP_400_BAD_REQUEST), db)
                   end).
  { unfold group_set, is_manager, data_item.
    cbn [request_method request_user request_data].
    unfold bind at 1. cbn [get_db]. rewrite Hmanager. cbn [negb].
    destruct (dict_get "username" data) as [v |]; [ | reflexivity ].
    unfold bind at 1, ret at 1. cbn beta iota. destruct (truthy v); reflexivity. }
  rewrite Hrun. repeat split.
  - intros ->. reflexivity.
  - intros v -> Hv. now rewrite Hv.
  - intros v -> Hv Hnone. rewrite Hv.
    unfold bind at 1, lift, get_object_or_404. now rewrite Hnone.
Qed.

Lemma roster_post_refusals_witness :
  in_group Sample.db (Some Sample.bob) "Manager" = true
  /\ serve api_manager_set (mkRequest POST (Some Sample.bob) [] []) Sample.db
     = (Raise KeyError, Sample.db)
  /\ serve api_delivery_set (mkRequest POST (Some Sample.bob) [("username", VStr "erin")] [])
       Sample.db
     = (Raise Http404, Sample.db).
Proof.
  split; [ reflexivity | split ].
  - refine (proj1 (roster_post_refusals Sample.db Sample.bob [] [] api_manager_set
                     (or_introl eq_refl) _) _); reflexivity.
  - refine (proj2 (proj2 (roster_post_refusals Sample.db Sample.bob
                            [("username", VStr "erin")] [] api_delivery_set
                            (or_intror eq_refl) _))
              (VStr "erin") _ _ _); reflexivity.
Defined.

(** X11: DELETE of a roster member by a Manager takes the user out of the
    group and then fails: the message is built from [user.get_username], the
    method itself and not its result, which cannot be added to a string, so
    the view raises [TypeError] after the membership is gone; no other
    membership changes.  A user who is not in the group is answered 400 and
    nothing changes. *)
Theorem roster_delete_removes_then_fails {F : Framework} (db : DB) (u id : Z)
    (data : dict) (q : query) (user : User) (e : endpoint) (name refusal : string) :
  (e = api_manager_delete id /\ name = "Manager" /\ refusal = "This user is not a manager")
  \/ (e = api_delivery_delete id /\ name = "Delivery crew"
      /\ refusal = "This user is not a delivery crew") ->
  in_group db (Some u) "Manager" = true ->
  get_object_or_404 (users db) (fun x => user_id x =? id) = Ok user ->
  (in_group db (Some id) name = true ->
   filter (String.eqb name) (groups db) = [name] ->
   serve e (mkRequest DELETE (Some u) data q) db
     = (Raise TypeError, user_set_remove name id db)
   /\ in_group (user_set_remove name id db) (Some id) name = false
   /\ (forall (u' : Z) (name' : string),
         u' <> id \/ name' <> name ->
         in_group (user_set_remove name id db) (Some u') name'
         = in_group db (Some u') name'))
  /\ (in_group db (Some id) name = false ->
      serve e (mkRequest DELETE (Some u) data q) db
        = (Ok (Response2 (Message refusal) HTTP_400_BAD_REQUEST), db)).
Proof.
  intros He Hmanager Huser.
  destruct (get_object_or_404_holds _ _ _ Huser) as [_ Hid]. apply Z.eqb_eq in Hid.
  assert (Hserve : serve e (mkRequest DELETE (Some u) data q) db
                   = group_delete name refusal id (mkRequest DELETE (Some u) data q) db).
  { destruct He as [(-> & -> & ->) | (-> & -> & ->)]; reflexivity. }
  assert (Hrun : group_delete name refusal id (mkRequest DELETE (Some u) data q) db
                 = if in_group db (Some id) name
                   then
                     match filter (String.eqb name) (groups db) with
                     | [] => (Raise DoesNotExist, db)
                     | [_] => (Raise TypeError, user_set_remove name id db)
                     | _ => (Raise MultipleObjectsReturned, db)
                     end
                   else (Ok (Response2 (Message refusal) HTTP_400_BAD_REQUEST), db)).
  { unfold group_delete, is_manager, Group_get, objects_get.
    cbn [request_method request_user request_data method_eqb negb].
    unfold bind at 1. cbn [get_db]. rewrite Hmanager.
    unfold bind at 1, lift. rewrite Huser, Hid.
    destruct (in_group db (Some id) name); [ | reflexivity ].
    unfold bind at 1. unfold bind at 1. cbn [get_db]. unfold lift.
    destruct (filter (String.eqb name) (groups db)) as [| g [| g' l]]; reflexivity. }
  rewrite Hserve, Hrun. split.
  - intros Hin Hgroup. rewrite Hin, Hgroup. repeat split.
    + apply in_group_user_set_remove.
    + intros u' name' Hother. now apply user_set_remove_others.
  - intros Hout. now rewrite Hout.
Qed.

Lemma roster_delete_removes_then_fails_witness :
  in_group Sample.db (Some Sample.bob) "Manager" = true
  /\ in_group Sample.db (Some Sample.carol) "Delivery crew" = true
  /\ serve (api_delivery_delete Sample.carol) (mkRequest DELETE (Some Sample.bob) [] [])
       Sample.db
     = (Raise TypeError, user_set_remove "Delivery crew" Sample.carol Sample.db)
  /\ in_group (user_set_remove "Delivery crew" Sample.carol Sample.db) (Some Sample.carol)
       "Delivery crew" = false.
Proof.
  do 2 (split; [ reflexivity | ]).
  destruct (proj1 (roster_delete_removes_then_fails Sample.db Sample.bob Sample.carol [] []
                     (mkUser Sample.carol "carol" "carol@example.com")
                     (api_delivery_delete Sample.carol) "Delivery crew"
                     "This user is not a delivery crew"
                     (or_intror (conj eq_refl (conj eq_refl eq_refl))) eq_refl eq_refl)
              eq_refl eq_refl) as (Hrun & Hout & _).
  split; [ exact Hrun | exact Hout ].
Defined.

(** ** A cart is its user's *)

Lemma key_decides {A} (key : A -> Z) (l : list A) (x y : A) :
  NoDup (map key l) -> In x l -> In y l -> key x = key y -> x = y.
Proof.
  induction l as [| z l IH]; simpl; [ intros _ [] | ].
  intros Hnd Hx Hy Hk. inversion Hnd as [| ? ? Hnot Hnd']; subst.
  destruct Hx as [-> | Hx], Hy as [-> | Hy]; trivial.
  - exfalso. apply Hnot. rewrite Hk. now apply in_map.
  - exfalso. apply Hnot. rewrite <- Hk. now apply in_map.
  - now apply IH.
Qed.

Lemma objects_get_holds {A} (rows : list A) (p : A -> bool) (x : A) :
  objects_get rows p = Ok x -> In x rows /\ p x = true.
Proof.
  unfold objects_get. intros H. apply filter_In.
  destruct (filter p rows) as [| y [| z l]]; try discriminate.
  injection H as ->. now left.
Qed.

(** X12: the cart endpoint serves the requester's cart and touches no other.
    A cart that it answers with is a row of the table whose user is the
    requester; and, the keys of the cart table being distinct, whatever the
    method, the carts of every other user are afterwards as they were. *)
Theorem cart_is_private {F : Framework} (db : DB) (u : Z) (method : http_method)
    (data : dict) (q : query) :
  (forall (c : Cart) (status : Z),
     fst (serve api_cart (mkRequest method (Some u) data q) db)
       = Ok (mkResponse (CartData c) status) ->
     In c (carts db) /\ cart_user c = u)
  /\ (NoDup (map cart_id (carts db)) ->
      forall u', u' <> u ->
        filter (fun c => cart_user c =? u')
          (carts (snd (serve api_cart (mkRequest method (Some u) data q) db)))
        = filter (fun c => cart_user c =? u') (carts db)).
Proof.
  assert (Hmine : forall c, same_user (Some (cart_user c)) (Some u) = true -> cart_user c = u).
  { intros c H. now apply Z.eqb_eq in H. }
  split.
  - intros c status.
    destruct method;
      cbv beta iota delta
        [serve api_view request_user request_method existsb method_eqb orb].
    + unfold cart. cbn [request_method request_user]. unfold bind at 1. cbn [get_db].
      destruct (objects_get (carts db) _) as [c' | e] eqn:E; simpl; [ | discriminate ].
      intros H. injection H as <- _. apply objects_get_holds in E as [Hin Hp].
      split; [ trivial | now apply Hmine ].
    + pose proof (cart_post_run db u data q) as Hrun.
      cbv beta iota delta
        [serve api_view request_user request_method existsb method_eqb orb] in Hrun.
      rewrite Hrun. destruct (queryset_exists _); simpl; [ discriminate | ].
      destruct (fst (cart_data _ _)); discriminate.
    + discriminate.
    + discriminate.
    + unfold cart. cbn [request_method request_user]. unfold bind at 1. cbn [get_db].
      unfold bind at 1, lift.
      destruct (get_object_or_404 (carts db) _); simpl; discriminate.
  - intros Hkeys u' Hother.
    destruct method;
      cbv beta iota delta
        [serve api_view request_user request_method existsb method_eqb orb];
      try reflexivity.
    + unfold cart. cbn [request_method request_user]. unfold bind at 1. cbn [get_db].
      now destruct (objects_get (carts db) _).
    + pose proof (cart_post_reads db u data q) as Hsame.
      cbv beta iota delta
        [serve api_view request_user request_method existsb method_eqb orb] in Hsame.
      now rewrite Hsame.
    + unfold cart. cbn [request_method request_user]. unfold bind at 1. cbn [get_db].
      unfold bind at 1, lift.
      destruct (get_object_or_404 (carts db) _) as [c | e] eqn:E; [ | reflexivity ].
      apply get_object_or_404_holds in E as [Hin Hp]. apply Hmine in Hp.
      cbn [snd bind modify ret delete_cart carts set_carts fst]. unfold bind, modify, ret.
      cbn [snd carts delete_cart set_carts]. unfold delete_row.
      rewrite filter_filter. apply filter_ext_in. intros r Hr.
      destruct (cart_user r =? u') eqn:Er; [ | apply andb_false_r ].
      rewrite andb_true_r. apply Z.eqb_eq in Er.
      apply negb_true_iff, Z.eqb_neq. intros Hk.
      assert (r = c) by (now apply (key_decides cart_id (carts db))). congruence.
Qed.

Lemma cart_is_private_witness :
  NoDup (map cart_id [Sample.alice_cart; mkCart 2 Sample.dave 2 (7 # 1) 1 (7 # 1)])
  /\ carts (snd (serve api_cart (mkRequest DELETE (Some Sample.alice) [] [])
                   (set_carts [Sample.alice_cart; mkCart 2 Sample.dave 2 (7 # 1) 1 (7 # 1)]
                      Sample.db)))
     = [mkCart 2 Sample.dave 2 (7 # 1) 1 (7 # 1)]
  /\ filter (fun c => cart_user c =? Sample.dave)
       (carts (snd (serve api_cart (mkRequest DELETE (Some Sample.alice) [] [])
                      (set_carts
                         [Sample.alice_cart; mkCart 2 Sample.dave 2 (7 # 1) 1 (7 # 1)]
                         Sample.db))))
     = filter (fun c => cart_user c =? Sample.dave)
         [Sample.alice_cart; mkCart 2 Sample.dave 2 (7 # 1) 1 (7 # 1)]
  /\ In Sample.alice_cart (carts Sample.db)
  /\ cart_user Sample.alice_cart = Sample.alice.
Proof.
  assert (Hkeys : NoDup (map cart_id
                           [Sample.alice_cart; mkCart 2 Sample.dave 2 (7 # 1) 1 (7 # 1)])).
  { repeat constructor; simpl; intuition discriminate. }
  split; [ exact Hkeys | split; [ reflexivity | split ] ].
  - refine (proj2 (cart_is_private
                     (set_carts [Sample.alice_cart; mkCart 2 Sample.dave 2 (7 # 1) 1 (7 # 1)]
                        Sample.db)
                     Sample.alice DELETE [] []) Hkeys Sample.dave _). discriminate.
  - refine (proj1 (cart_is_private Sample.db Sample.alice GET [] [])
              Sample.alice_cart HTTP_200_OK _). reflexivity.
Defined.

(** ** Who writes the catalog *)

Section Framing.
Context {T : Type} (part : DB -> T).

Lemma frames_of_reads {A} (m : M A) : reads m -> frames part m.
Proof. intros H db. now rewrite H. Qed.

Lemma frames_bind {A B} (m : M A) (k : A -> M B) :
  frames part m -> (forall a, frames part (k a)) -> frames part (bind m k).
Proof.
  intros Hm Hk db. unfold bind. specialize (Hm db).
  destruct (m db) as [[a | e] db']; simpl in *; [ now rewrite Hk | trivial ].
Qed.

Lemma frames_try_except {A} (m : M A) (e : exn -> bool) (h : M A) :
  frames part m -> frames part h -> frames part (try_except m e h).
Proof.
  intros Hm Hh db. unfold try_except. specialize (Hm db).
  destruct (m db) as [[a | x] db']; simpl in *; trivial.
  destruct (e x); simpl; trivial. now rewrite Hh.
Qed.

Lemma frames_modify (f : DB -> DB) :
  (forall db, part (f db) = part db) -> frames part (modify f).
Proof. intros Hf db. apply Hf. Qed.

End Framing.

Ltac frames_step :=
  first
    [ apply frames_of_reads; solve [ view_reads ]
    | apply frames_bind; [ | intros ? ]
    | apply frames_try_except
    | apply frames_modify; intros ?; reflexivity
    | match goal with
      | |- frames _ (match ?x with _ => _ end) => destruct x
      | |- frames _ (if ?x then _ else _) => destruct x
      end ].

Ltac frames_all := repeat frames_step.

Lemma frames_at {T A} (part : DB -> T) (m : M A) (db : DB) :
  frames part m -> part (snd (m db)) = part db.
Proof. intros H. apply H. Qed.

Section Catalog.
Context {F : Framework}.

(** What is left of a view once its requester is known to be no Manager. *)
Ltac not_manager H :=
  unfold is_manager in *; unfold bind at 1; cbn [get_db];
  rewrite ?H; rewrite ?andb_false_r, ?orb_true_r; cbn [negb]; cbv beta iota;
  apply frames_at; frames_all.

Lemma catalog_category request db :
  is_manager db request = false -> catalog (snd (category request db)) = catalog db.
Proof. intros H. unfold category. not_manager H. Qed.

Lemma catalog_category_single id request db :
  is_manager db request = false ->
  catalog (snd (category_single id request db)) = catalog db.
Proof. intros H. unfold category_single. not_manager H. Qed.

Lemma catalog_menuitems request db :
  is_manager db request = false -> catalog (snd (menuitems request db)) = catalog db.
Proof. intros H. unfold menuitems. not_manager H. Qed.

Lemma catalog_menuitems_single id request db :
  is_manager db request = false ->
  catalog (snd (menuitems_single id request db)) = catalog db.
Proof. intros H. unfold menuitems_single. not_manager H. Qed.

Lemma catalog_group_set name words request db :
  is_manager db request = false ->
  catalog (snd (group_set name words request db)) = catalog db.
Proof. intros H. unfold group_set. not_manager H. Qed.

Lemma catalog_group_delete name refusal id request db :
  is_manager db request = false ->
  catalog (snd (group_delete name refusal id request db)) = catalog db.
Proof. intros H. unfold group_delete. not_manager H. Qed.

Lemma catalog_cart request db : catalog (snd (cart request db)) = catalog db.
Proof. unfold cart, CartSerializer_save. apply frames_at. frames_all. Qed.

Lemma catalog_order request db : catalog (snd (order request db)) = catalog db.
Proof.
  unfold order, OrderItemSerializer_save, OrderSerializer_save,
    OrderItem_get_user_menuitem, OrderSerializer_data_of_queryset.
  apply frames_at. frames_all.
Qed.

Lemma catalog_order_single id request db :
  catalog (snd (order_single id request db)) = catalog db.
Proof. unfold order_single, OrderSerializer_save. apply frames_at. frames_all. Qed.

Lemma catalog_RatingsView request db : catalog (snd (RatingsView request db)) = catalog db.
Proof. unfold RatingsView, RatingSerializer_save. apply frames_at. frames_all. Qed.

Lemma catalog_api_view methods authenticated view request db :
  catalog (snd (view request db)) = catalog db ->
  catalog (snd (api_view methods authenticated view request db)) = catalog db.
Proof.
  intros H. unfold api_view.
  destruct authenticated, (request_user request),
    (existsb (method_eqb (request_method request)) methods); trivial.
Qed.

End Catalog.

(** X13: only Managers write the catalog.  Whatever the endpoint, the
    method and the body, a request of a requester who is not in the Manager
    group leaves the users, the groups, the group rosters, the categories
    and the menu items as they were. *)
Theorem only_managers_write_the_catalog {F : Framework} (e : endpoint) (request : Request)
    (db : DB) :
  is_manager db request = false ->
  users (snd (serve e request db)) = users db
  /\ groups (snd (serve e request db)) = groups db
  /\ memberships (snd (serve e request db)) = memberships db
  /\ categories (snd (serve e request db)) = categories db
  /\ menuitems_table (snd (serve e request db)) = menuitems_table db.
Proof.
  intros H.
  assert (Hcatalog : catalog (snd (serve e request db)) = catalog db).
  { destruct e; cbv beta iota delta [serve];
      unfold manager_set, manager_delete, delivery_set, delivery_delete;
      try apply catalog_api_view;
      first [ now apply catalog_category | now apply catalog_category_single
            | now apply catalog_menuitems | now apply catalog_menuitems_single
            | now apply catalog_group_set | now apply catalog_group_delete
            | apply catalog_cart | apply catalog_order | apply catalog_order_single
            | apply catalog_RatingsView ]. }
  unfold catalog in Hcatalog. injection Hcatalog as -> -> -> -> ->. repeat split.
Qed.

Lemma only_managers_write_the_catalog_witness :
  is_manager Sample.db
    (mkRequest POST (Some Sample.carol) [("title", VStr "Tea"); ("slug", VStr "tea")] [])
  = false
  /\ categories
       (snd (serve api_category
               (mkRequest POST (Some Sample.carol)
                  [("title", VStr "Tea"); ("slug", VStr "tea")] [])
               Sample.db))
     = categories Sample.db
  /\ memberships
       (snd (serve (api_manager_delete Sample.bob)
               (mkRequest DELETE (Some Sample.carol) [] []) Sample.db))
     = memberships Sample.db.
Proof.
  split; [ reflexivity | split ].
  - refine (proj1 (proj2 (proj2 (proj2 (only_managers_write_the_catalog api_category
                     (mkRequest POST (Some Sample.carol)
                        [("title", VStr "Tea"); ("slug", VStr "tea")] [])
                     Sample.db _))))). reflexivity.
  - refine (proj1 (proj2 (proj2 (only_managers_write_the_catalog
                     (api_manager_delete Sample.bob)
                     (mkRequest DELETE (Some Sample.carol) [] []) Sample.db _)))).
    reflexivity.
Defined.

(** ** Updating an order *)

(** An update of an order through its serializer either fails with nothing
    written or puts one order with the same key in its place. *)
Lemma order_update_run {F : Framework} (o : Order) (partial : bool) (data : dict)
    (db : DB) :
  bind (OrderSerializer_is_valid (Some o) partial data)
    (fun attrs =>
       bind (OrderSerializer_save (Some o) attrs)
         (fun o' => ret (Response2 (OrderData (OrderSerializer_data db o'))
                           HTTP_205_RESET_CONTENT))) db
  = match fst (OrderSerializer_is_valid (Some o) partial data db) with
    | Ok attrs =>
        (Ok (Response2
               (OrderData
                  (OrderSerializer_data db
                     (mkOrder (order_id o) (attrs_order_user attrs)
                        (attrs_delivery_crew attrs) (attrs_status attrs)
                        (attrs_date attrs) (attrs_total attrs))))
               HTTP_205_RESET_CONTENT),
         set_orders
           (replace_row order_id
              (mkOrder (order_id o) (attrs_order_user attrs) (attrs_delivery_crew attrs)
                 (attrs_status attrs) (attrs_date attrs) (attrs_total attrs))
              (orders db)) db)
    | Raise e => (Raise e, db)
    end.
Proof.
  unfold bind at 1.
  pose proof (reads_OrderSerializer_is_valid (Some o) partial data db) as Hreads.
  destruct (OrderSerializer_is_valid (Some o) partial data db) as [[attrs | e] db'];
    simpl in Hreads; subst db'; reflexivity.
Qed.

(** X14: PUT and PATCH of an order never add, drop or renumber an order.
    Either the database is left as it was (the row is missing, the requester
    is refused, or the body is not valid), or the order table is the old one
    with the row of this key replaced by a row of the same key, so the keys
    of the table, in their order, are the same. *)
Theorem order_update_keeps_keys {F : Framework} (db : DB) (id u : Z)
    (method : http_method) (data : dict) (q : query) :
  method = PUT \/ method = PATCH ->
  snd (serve (api_order_single id) (mkRequest method (Some u) data q) db) = db
  \/ exists o' : Order,
       order_id o' = id
       /\ snd (serve (api_order_single id) (mkRequest method (Some u) data q) db)
          = set_orders (replace_row order_id o' (orders db)) db
       /\ map order_id (replace_row order_id o' (orders db)) = map order_id (orders db).
Proof.
  intros Hmethod.
  assert (Hstep : forall o partial d,
             get_object_or_404 (orders db) (fun x => order_id x =? id) = Ok o ->
             snd (bind (OrderSerializer_is_valid (Some o) partial d)
                    (fun attrs =>
                       bind (OrderSerializer_save (Some o) attrs)
                         (fun o' => ret (Response2 (OrderData (OrderSerializer_data db o'))
                                           HTTP_205_RESET_CONTENT))) db) = db
             \/ exists o' : Order,
                  order_id o' = id
                  /\ snd (bind (OrderSerializer_is_valid (Some o) partial d)
                            (fun attrs =>
                               bind (OrderSerializer_save (Some o) attrs)
                                 (fun o' =>
                                    ret (Response2 (OrderData (OrderSerializer_data db o'))
                                           HTTP_205_RESET_CONTENT))) db)
                     = set_orders (replace_row order_id o' (orders db)) db
                  /\ map order_id (replace_row order_id o' (orders db))
                     = map order_id (orders db)).
  { intros o partial d Ho.
    destruct (get_object_or_404_holds _ _ _ Ho) as [_ Hid]. apply Z.eqb_eq in Hid.
    rewrite order_update_run.
    destruct (fst (OrderSerializer_is_valid (Some o) partial d db)) as [attrs | e];
      [ | now left ].
    right. eexists. repeat split; [ | apply replace_row_keys ]. exact Hid. }
  remember (serve (api_order_single id) (mkRequest method (Some u) data q) db) as r eqn:Hr.
  cbv beta iota delta [serve api_view request_user request_method] in Hr.
  replace (existsb (method_eqb method) [GET; PUT; PATCH; DELETE]) with true in Hr
    by (destruct Hmethod; subst; reflexivity).
  unfold order_single, is_manager, is_delivery_crew, data_item in Hr.
  cbn [request_method request_user request_data] in Hr.
  unfold bind at 1 in Hr. cbn [get_db] in Hr. unfold bind at 1, lift in Hr.
  destruct (get_object_or_404 (orders db) (fun x => order_id x =? id)) as [o | e] eqn:Ho;
    [ | subst r; now left ].
  destruct Hmethod; subst method.
  - destruct (in_group db (Some u) "Manager"); cbn [negb] in Hr;
      [ | subst r; now left ].
    subst r. now apply Hstep.
  - destruct (in_group db (Some u) "Delivery crew").
    + destruct (same_user (order_delivery_crew o) (Some u)); cbn [negb] in Hr;
        [ | subst r; now left ].
      destruct (dict_get "status" data) as [v |]; [ | subst r; now left ].
      unfold bind at 1, ret at 1 in Hr. subst r. now apply Hstep.
    + destruct (in_group db (Some u) "Manager"); [ | subst r; now left ].
      subst r. now apply Hstep.
Qed.

Lemma order_update_keeps_keys_witness :
  (PATCH = PUT \/ PATCH = PATCH)
  /\ map order_id
       (orders (snd (serve (api_order_single 1)
                       (mkRequest PATCH (Some Sample.carol) [("status", VInt 1)] [])
                       Sample.db)))
     = [1; 2; 3]
  /\ (snd (serve (api_order_single 1)
             (mkRequest PATCH (Some Sample.carol) [("status", VInt 1)] []) Sample.db)
      = Sample.db
      \/ exists o' : Order,
           order_id o' = 1
           /\ snd (serve (api_order_single 1)
                     (mkRequest PATCH (Some Sample.carol) [("status", VInt 1)] [])
                     Sample.db)
              = set_orders (replace_row order_id o' (orders Sample.db)) Sample.db
           /\ map order_id (replace_row order_id o' (orders Sample.db))
              = map order_id (orders Sample.db)).
Proof.
  split; [ now right | split; [ reflexivity | ] ].
  exact (order_update_keeps_keys Sample.db 1 Sample.carol PATCH [("status", VInt 1)] []
           (or_intror eq_refl)).
Defined.

(** ** The category of a menu item exists *)

Lemma MenuItemSerializer_is_valid_category {F : Framework} (instance : option MenuItem)
    (partial : bool) (data : dict) (db : DB) (t : string) (p : Q) (c : Z) (f : bool) :
  fst (MenuItemSerializer_is_valid instance partial data db) = Ok (t, p, c, f) ->
  existsb (Z.eqb c) (map category_id (categories db)) = true
  \/ exists old, instance = Some old /\ menuitem_category old = c /\ partial = true.
Proof.
  unfold MenuItemSerializer_is_valid, bind, get_db. cbn [fst snd].
  destruct (field partial true to_text _ _); [ | discriminate ].
  destruct (field partial true to_decimal _ _); [ | discriminate ].
  destruct (field partial true (related _) _ _) as [c' |] eqn:Ec; [ | discriminate ].
  destruct (field partial true to_bool _ _); [ | discriminate ].
  intros H. injection H as _ _ -> _.
  unfold field in Ec. destruct (dict_get "category" data) as [v |].
  - left. unfold not_null, related in Ec.
    destruct v; try discriminate;
      (destruct (to_pk _) as [k |]; [ | discriminate ];
       destruct (existsb (Z.eqb k) _) eqn:Ek; [ | discriminate ];
       now injection Ec as <-).
  - destruct partial; [ | discriminate ]. right.
    destruct instance as [old |]; [ | discriminate ].
    exists old. cbn in Ec. injection Ec as <-. auto.
Qed.

Lemma Forall_replace_row {A} (P : A -> Prop) (key : A -> Z) (x : A) (rows : list A) :
  P x -> Forall P rows -> Forall P (replace_row key x rows).
Proof.
  intros Hx Hrows. unfold replace_row. apply Forall_map.
  eapply Forall_impl; [ | exact Hrows ]. intros r Hr. now destruct (key r =? key x).
Qed.

Lemma Forall_filter {A} (P : A -> Prop) (f : A -> bool) (rows : list A) :
  Forall P rows -> Forall P (filter f rows).
Proof.
  intros H. apply Forall_forall. intros x Hx. apply filter_In in Hx as [Hx _].
  now apply (proj1 (Forall_forall P rows) H).
Qed.

Lemma menu_categories_exist_saved {F : Framework} (instance : option MenuItem)
    (partial : bool) (data : dict) (db : DB) :
  (forall old, instance = Some old -> In old (menuitems_table db)) ->
  menu_categories_exist db ->
  menu_categories_exist
    (snd (bind (MenuItemSerializer_is_valid instance partial data)
            (fun attrs => MenuItemSerializer_save instance attrs) db)).
Proof.
  intros Hold Hdb. unfold bind at 1.
  pose proof (MenuItemSerializer_is_valid_category instance partial data db) as Hcategory.
  pose proof (reads_MenuItemSerializer_is_valid instance partial data db) as Hreads.
  destruct (MenuItemSerializer_is_valid instance partial data db)
    as [[[[[t p] c] f] | e] db']; simpl in Hreads; subst db'; [ | exact Hdb ].
  assert (Hc : existsb (Z.eqb c) (map category_id (categories db)) = true).
  { destruct (Hcategory t p c f eq_refl) as [H | (old & Hi & <- & _)]; trivial.
    exact (proj1 (Forall_forall _ _) Hdb old (Hold old Hi)). }
  unfold MenuItemSerializer_save, bind, get_db, modify, ret. cbn [fst snd].
  destruct instance as [old |]; cbn [fst snd]; unfold menu_categories_exist;
    cbn [menuitems_table set_menuitems].
  - apply Forall_replace_row; trivial.
  - apply Forall_app. split; [ exact Hdb | ]. now constructor.
Qed.

(** X15: the menu-item endpoints keep every menu item in a category that
    exists.  The serializer's [category] is a [PrimaryKeyRelatedField] over
    the categories, so POST and PUT take only the key of a category of the
    table, PATCH that or the row's own, and DELETE only removes rows: if the
    category of every menu item is a row of the category table before a
    request to /menu-items or /menu-items/{id}, it is so after. *)
Theorem menu_item_category_exists {F : Framework} (e : endpoint) (request : Request)
    (db : DB) :
  (e = api_menuitems \/ exists id, e = api_menuitems_single id) ->
  menu_categories_exist db ->
  menu_categories_exist (snd (serve e request db)).
Proof.
  intros He Hdb.
  assert (Hsaved : forall instance partial status,
             (forall old, instance = Some old -> In old (menuitems_table db)) ->
             menu_categories_exist
               (snd (bind (MenuItemSerializer_is_valid instance partial
                             (request_data request))
                       (fun attrs =>
                          bind (MenuItemSerializer_save instance attrs)
                            (fun item => ret (Response2 (MenuItemData item) status))) db))).
  { intros instance partial status Hold.
    pose proof (menu_categories_exist_saved instance partial (request_data request) db
                  Hold Hdb) as H.
    unfold bind at 1 in H. unfold bind at 1.
    destruct (MenuItemSerializer_is_valid instance partial (request_data request) db)
      as [[attrs | x] db']; [ | exact H ].
    unfold bind at 1. now destruct (MenuItemSerializer_save instance attrs db') as [[m | x] db'']. }
  destruct He as [-> | [id ->]]; cbv beta iota delta [serve api_view].
  - destruct (existsb _ _); [ | exact Hdb ].
    unfold menuitems. unfold bind at 1. cbn [get_db].
    destruct (method_eqb (request_method request) GET).
    + replace (snd _) with db; trivial. symmetry. apply reads_apply. view_reads.
    + destruct (_ && _); [ | exact Hdb ]. apply Hsaved. discriminate.
  - destruct (existsb _ _); [ | exact Hdb ].
    unfold menuitems_single. unfold bind at 1. cbn [get_db]. unfold bind at 1, lift.
    destruct (get_object_or_404 _ _) as [item | x] eqn:Eitem; [ | exact Hdb ].
    apply get_object_or_404_holds in Eitem as [Hin _].
    destruct (method_eqb (request_method request) GET); [ exact Hdb | ].
    destruct (_ || _); [ exact Hdb | ].
    destruct (request_method request); try exact Hdb.
    + apply Hsaved. now intros old [= <-].
    + apply Hsaved. now intros old [= <-].
    + unfold bind, modify, ret. cbn [fst snd]. unfold menu_categories_exist, delete_menuitem.
      cbn [menuitems_table set_orderitems set_carts set_menuitems].
      unfold delete_row. now apply Forall_filter.
Qed.

Lemma menu_item_category_exists_witness :
  menu_categories_exist Sample.db
  /\ List.length
       (menuitems_table
          (snd (serve api_menuitems
                  (mkRequest POST (Some Sample.bob)
                     [("title", VStr "Tea"); ("price", VStr "2.50"); ("category", VInt 1);
                      ("featured", VBool false)] [])
                  Sample.db)))
     = 4%nat
  /\ menu_categories_exist
       (snd (serve api_menuitems
               (mkRequest POST (Some Sample.bob)
                  [("title", VStr "Tea"); ("price", VStr "2.50"); ("category", VInt 1);
                   ("featured", VBool false)] [])
               Sample.db)).
Proof.
  assert (Hdb : menu_categories_exist Sample.db) by (repeat constructor).
  split; [ exact Hdb | split; [ reflexivity | ] ].
  exact (menu_item_category_exists api_menuitems
           (mkRequest POST (Some Sample.bob)
              [("title", VStr "Tea"); ("price", VStr "2.50"); ("category", VInt 1);
               ("featured", VBool false)] [])
           Sample.db (or_introl eq_refl) Hdb).
Defined.

(** ** Walking the pages *)

Lemma firstn_plus {A} (a b : nat) (l : list A) :
  firstn (a + b) l = firstn a l ++ firstn b (skipn a l).
Proof.
  revert l. induction a as [| a IH]; intros l; simpl; trivial.
  destruct l as [| x l]; simpl; [ now rewrite firstn_nil | now rewrite IH ].
Qed.

Lemma windows_concat {A} (l : list A) (k : Z) (n : nat) :
  1 <= k ->
  List.concat (map (fun p => window l k (Z.of_nat p)) (seq 1 n))
  = firstn (n * Z.to_nat k) l.
Proof.
  intros Hk. induction n as [| n IH]; trivial.
  rewrite seq_S, map_app, List.concat_app, IH. cbn [map List.concat]. rewrite app_nil_r.
  unfold window. replace (Z.of_nat (1 + n) <? 1) with false by (symmetry; apply Z.ltb_ge; lia).
  replace (Z.to_nat ((Z.of_nat (1 + n) - 1) * k)) with (n * Z.to_nat k)%nat by nia.
  rewrite <- firstn_plus. f_equal. lia.
Qed.

(** X16: the pages of a paginator cover the rows.  For a page size of at
    least 1 there is a last page, at least 1; every page from 1 to the last
    is answered with its window of the rows; no page is longer than the page
    size; and the pages 1 to the last, one after the other, are the rows,
    each once and in their order. *)
Theorem pages_cover_the_rows {A : Type} (rows : list A) (k last : Z) :
  1 <= k ->
  Paginator_num_pages (Z.of_nat (List.length rows)) k = Ok last ->
  1 <= last
  /\ (forall p, 1 <= p <= last -> Paginator_page rows k p = Ok (window rows k p))
  /\ (forall p, (List.length (window rows k p) <= Z.to_nat k)%nat)
  /\ List.concat (map (fun p => window rows k (Z.of_nat p)) (seq 1 (Z.to_nat last))) = rows.
Proof.
  intros Hk Hlast. unfold Paginator_num_pages in Hlast.
  replace (k =? 0) with false in Hlast by (symmetry; apply Z.eqb_neq; lia).
  injection Hlast as <-.
  pose proof (ceil_div_covers (Z.max 1 (Z.of_nat (List.length rows))) k ltac:(lia)) as Hcover.
  assert (Hone : 1 <= ceil_div (Z.max 1 (Z.of_nat (List.length rows))) k) by nia.
  repeat split; trivial.
  - intros p [Hp1 Hp2]. unfold Paginator_page, Paginator_num_pages, window.
    replace (p <? 1) with false by (symmetry; apply Z.ltb_ge; lia).
    replace (k =? 0) with false by (symmetry; apply Z.eqb_neq; lia).
    replace (p >? ceil_div (Z.max 1 (Z.of_nat (List.length rows))) k) with false
      by (symmetry; rewrite Z.gtb_ltb; apply Z.ltb_ge; lia).
    rewrite slice_window; trivial; nia.
  - intros p. unfold window. destruct (p <? 1); simpl; [ lia | ].
    rewrite length_firstn. lia.
  - rewrite windows_concat by trivial. apply firstn_all2. nia.
Qed.

Lemma pages_cover_the_rows_witness :
  1 <= 2
  /\ Paginator_num_pages 3 2 = Ok 2
  /\ List.concat (map (fun p => window [Sample.pasta; Sample.salad; Sample.soup] 2 (Z.of_nat p))
               (seq 1 2))
     = [Sample.pasta; Sample.salad; Sample.soup].
Proof.
  split; [ lia | split; [ reflexivity | ] ].
  refine (proj2 (proj2 (proj2 (pages_cover_the_rows
                                 [Sample.pasta; Sample.salad; Sample.soup] 2 2 _ _))));
    [ lia | reflexivity ].
Defined.
